(** * Analytics engine of the betting dashboard (app.py)

    A shallow embedding of [load_data]'s odds conversion, of the class
    [AnalyticsEngine] (match detection, window metrics, heuristic score,
    risk label and the aggregation of [analyze_all]), of the frame that
    [create_analysis_chart] prepares for its plot, and of the risk-cell
    styler of [main].

    Modelling conventions.
    - A data frame is the list of its rows, in row order.
    - Numeric columns are exact rationals ([Q]) in the engine's metrics
      and scores; where a printed digit or a strict bound depends on
      rounding (the odds conversion, the recommendation text) the numbers
      are binary64 values ([float]).  Scores are integers ([Z]).
    - A nullable text cell (pandas NaN in an object column) is
      [option string]; comparing a null cell with [==] is always false.
    - A Python exception is a value of [result]. *)

From Stdlib Require Import ZArith QArith Qround Qabs String Ascii List Bool Lia.
From Stdlib Require Import Permutation Sorted DecimalString.
From Stdlib Require Import Qfield Lqa Floats Uint63.
Import ListNotations.

Local Open Scope string_scope.
Local Open Scope list_scope.
Local Open Scope Z_scope.

(** ** Exceptions *)

Inductive exn : Type :=
| IndexError
| KeyError (key : string).

Inductive result (A : Type) : Type :=
| Ok (a : A)
| Raise (e : exn).
Arguments Ok {A} a.
Arguments Raise {A} e.

(** [try: body except: handler] with a bare [except]. *)
Definition try_except {A} (body : result A) (handler : result A) : result A :=
  match body with
  | Ok a => Ok a
  | Raise _ => handler
  end.

Definition bind {A B} (r : result A) (k : A -> result B) : result B :=
  match r with
  | Ok a => k a
  | Raise e => Raise e
  end.

Notation "x <- r ;; k" := (bind r (fun x => k))
  (at level 61, r at next level, right associativity).

(** ** Data model *)

Definition cell := option string.
Definition NaN : cell := None.

(** [a == b] on text cells, as pandas compares an object column with a
    scalar: a null on either side compares false. *)
Definition cell_eq (a b : cell) : bool :=
  match a, b with
  | Some x, Some y => String.eqb x y
  | _, _ => false
  end.

(** Equality of cell values as [unique] sees them: all nulls are one value. *)
Definition cell_same (a b : cell) : bool :=
  match a, b with
  | Some x, Some y => String.eqb x y
  | None, None => true
  | _, _ => false
  end.

Record Observation : Type := mkObservation {
  timestamp : Z;
  market_type : string;
  side : cell;
  team : cell;
  odds : Q;
  line : Q;
  decimal_odds : Q
}.

Definition DataFrame := list Observation.

Record Metric : Type := mkMetric {
  open_line : Q;
  close_line : Q;
  money_flow : Q;
  current_odds : Q
}.

Record Signal : Type := mkSignal {
  Market : string;
  Selection : cell;
  Score : Z;
  Risk : string;
  Safe_Bet_Line : string;
  Metrics : Metric
}.

Record Teams : Type := mkTeams {
  home : cell;
  away : cell
}.

(** [self.teams.items()]: the dict was built with key 'home' first. *)
Definition items (t : Teams) : list (string * cell) :=
  [("home", home t); ("away", away t)].

Record AnalyticsEngine : Type := mkEngine {
  df : DataFrame;
  spread_buffer : Q;
  total_buffer : Q;
  teams : Teams
}.

(** ** load_data: the odds conversion (line 25) *)

Definition Qltb (a b : Q) : bool := negb (Qle_bool b a).

(** The conversion in exact arithmetic; [american_to_decimal_b64] below
    is the same expression on binary64. *)
Definition american_to_decimal (o : Q) : Q :=
  if Qle_bool 0 o then (1 + o / 100)%Q else (1 - 100 / o)%Q.

(** ** Pandas helpers *)

(** [Series.unique()]: distinct values in order of first appearance. *)
Fixpoint unique (l : list cell) : list cell :=
  match l with
  | [] => []
  | c :: l' => c :: filter (fun d => negb (cell_same c d)) (unique l')
  end.

(** [Series.dropna()] on a text column. *)
Fixpoint dropna (l : list cell) : list string :=
  match l with
  | [] => []
  | Some s :: l' => s :: dropna l'
  | None :: l' => dropna l'
  end.

(** [seq[i]] / [.iloc[i]] for [i >= 0]: raises IndexError out of range. *)
Definition index {A} (l : list A) (i : nat) : result A :=
  match nth_error l i with
  | Some a => Ok a
  | None => Raise IndexError
  end.

(** [.iloc[:n]] *)
Definition iloc_head {A} (n : nat) (l : list A) : list A := firstn n l.

(** [.iloc[-n:]]; for [n = 0] the slice [-0:] is the whole frame. *)
Definition iloc_tail {A} (n : nat) (l : list A) : list A :=
  match n with
  | O => l
  | _ => skipn (length l - n) l
  end.

Definition Qsum (l : list Q) : Q := fold_right Qplus 0%Q l.

(** [Series.mean()]; the engine only takes it over non-empty slices. *)
Definition mean (l : list Q) : Q :=
  (Qsum l / inject_Z (Z.of_nat (length l)))%Q.

(** ** AnalyticsEngine._detect_match_info *)

Definition first_team (d : DataFrame) (s : string) : result string :=
  index (dropna (map team (filter (fun r => cell_eq (side r) (Some s)) d))) 0.

Definition _detect_match_info (d : DataFrame) : result Teams :=
  try_except
    (h <- first_team d "home" ;;
     a <- first_team d "away" ;;
     Ok (mkTeams (Some h) (Some a)))
    (let ts := unique (map team d) in
     h <- index ts 0 ;;
     a <- (if (1 <? length ts)%nat then index ts 1 else Ok (Some "Unknown")) ;;
     Ok (mkTeams h a)).

(** [AnalyticsEngine.__init__] with its default buffers. *)
Definition new_engine_with (d : DataFrame) (sb tb : Q) : result AnalyticsEngine :=
  t <- _detect_match_info d ;;
  Ok (mkEngine d sb tb t).

Definition default_spread_buffer : Q := 35 # 10.
Definition default_total_buffer : Q := 6.

Definition new_engine (d : DataFrame) : result AnalyticsEngine :=
  new_engine_with d default_spread_buffer default_total_buffer.

(** ** AnalyticsEngine._get_metrics *)

Definition subset_of (d : DataFrame) (mt : string) (selection : cell) : DataFrame :=
  if String.eqb mt "Total" then
    filter (fun r => String.eqb (market_type r) "Total" && cell_eq (side r) selection) d
  else
    filter (fun r => String.eqb (market_type r) mt && cell_eq (team r) selection) d.

(** [max(3, int(len(subset) * 0.15))] *)
Definition window (count : nat) : nat :=
  Z.to_nat (Z.max 3 (Qfloor (inject_Z (Z.of_nat count) * (15 # 100)))).

Definition implied_prob (avg_odds : Q) : Q :=
  if Qltb 0 avg_odds then (1 / avg_odds)%Q else 0%Q.

Definition _get_metrics (d : DataFrame) (mt : string) (selection : cell) : option Metric :=
  let subset := subset_of d mt selection in
  if (length subset <? 5)%nat then None else
  let n := window (length subset) in
  let open_slice := iloc_head n subset in
  let close_slice := iloc_tail n subset in
  let avg_open_odds := mean (map decimal_odds open_slice) in
  let avg_close_odds := mean (map decimal_odds close_slice) in
  let '(avg_open_line, avg_close_line) :=
    if String.eqb mt "Moneyline" then (0%Q, 0%Q)
    else (mean (map line open_slice), mean (map line close_slice)) in
  let prob_open := implied_prob avg_open_odds in
  let prob_close := implied_prob avg_close_odds in
  Some {| open_line := avg_open_line;
          close_line := avg_close_line;
          money_flow := ((prob_close - prob_open) * 100)%Q;
          current_odds := avg_close_odds |}.

(** ** AnalyticsEngine._calculate_score *)

Definition _calculate_score (mt : string) (m : Metric) (selection : cell) : Z :=
  let score := 5 in
  let score :=
    if Qltb (5 # 10) (money_flow m) then score + 2
    else if Qltb (money_flow m) (- (5 # 10)) then score - 2
    else score in
  let score :=
    if String.eqb mt "Spread" then
      let line_tightened := Qltb (close_line m) (open_line m) in
      if line_tightened then score + 2 else score - 1
    else if String.eqb mt "Total" then
      if cell_eq selection (Some "over") && Qltb (close_line m) (open_line m)
         && Qltb 0 (money_flow m) then score + 3
      else if cell_eq selection (Some "under") && Qltb (open_line m) (close_line m)
              && Qltb 0 (money_flow m) then score + 3
      else score
    else if String.eqb mt "Moneyline" then
      if Qltb (15 # 10) (money_flow m) then score + 3 else score
    else score in
  Z.max 1 (Z.min 10 score).

(** ** AnalyticsEngine._get_risk_label *)

Definition _get_risk_label (score : Z) : string :=
  if (7 <=? score)%Z then "SCĂZUT"
  else if (5 <=? score)%Z then "MEDIU"
  else "RIDICAT".

(** ** String formatting *)

Definition is_lower (c : ascii) : bool :=
  let n := nat_of_ascii c in (97 <=? n)%nat && (n <=? 122)%nat.

Definition is_upper (c : ascii) : bool :=
  let n := nat_of_ascii c in (65 <=? n)%nat && (n <=? 90)%nat.

Definition to_upper (c : ascii) : ascii :=
  if is_lower c then ascii_of_nat (nat_of_ascii c - 32) else c.

Definition to_lower (c : ascii) : ascii :=
  if is_upper c then ascii_of_nat (nat_of_ascii c + 32) else c.

(** [str.upper()] on ASCII text. *)
Fixpoint upper (s : string) : string :=
  match s with
  | EmptyString => EmptyString
  | String c s' => String (to_upper c) (upper s')
  end.

(** [str.title()] on ASCII text: a letter that follows a letter is
    lowered, any other letter is raised. *)
Fixpoint title_from (after_letter : bool) (s : string) : string :=
  match s with
  | EmptyString => EmptyString
  | String c s' =>
      String (if after_letter then to_lower c else to_upper c)
             (title_from (is_lower c || is_upper c) s')
  end.

Definition title (s : string) : string := title_from false s.

(** [str(x)] of a text cell inside an f-string. *)
Definition str (c : cell) : string :=
  match c with
  | Some s => s
  | None => "nan"
  end.

(** Rounding to the nearest integer, halves to the even neighbour. *)
Definition round_half_even (q : Q) : Z :=
  let f := Qfloor q in
  match Qcompare (q - inject_Z f) (1 # 2) with
  | Lt => f
  | Gt => f + 1
  | Eq => if Z.even f then f else f + 1
  end.

(** [f"{q:.1f}"] of an exact value: sign, integer part, one rounded
    decimal.  [format_1f_b64] applies it to the exact value of a binary64
    number. *)
Definition format_1f (q : Q) : string :=
  let tenths := round_half_even (Qabs q * 10) in
  (if Qltb q 0 then "-" else "")
  ++ NilZero.string_of_uint (N.to_uint (Z.to_N (tenths / 10)))
  ++ "." ++ NilZero.string_of_uint (N.to_uint (Z.to_N (tenths mod 10))).

(** ** DataFrame.sort_values *)

Definition desc (a b : Signal) : Prop := Score b <= Score a.

(** [DataFrame(signals).sort_values('Score', ascending=False)] is called
    with the default [kind] ('quicksort').  Pandas returns the rows
    reordered by descending key and documents that only the kinds
    'mergesort' and 'stable' keep the order of equal keys; which order the
    default kind gives them depends on the numpy build underneath.  A sort
    kind is any function with the documented contract: what holds for
    every kind is stated over this class, and [analyze_all_default] below
    runs the kernel of the default kind. *)
Class SortKind : Type := {
  sort_values : list Signal -> list Signal;
  sort_values_perm : forall l, Permutation l (sort_values l);
  sort_values_desc : forall l, StronglySorted desc (sort_values l)
}.

(** Insertion into a list sorted by descending score.  With [strict] unset
    the new row goes before the rows of equal score, with [strict] set it
    goes after them. *)
Fixpoint insert_desc (strict : bool) (x : Signal) (l : list Signal) : list Signal :=
  match l with
  | [] => [x]
  | y :: l' =>
      if (if strict then Score y <? Score x else Score y <=? Score x)
      then x :: y :: l'
      else y :: insert_desc strict x l'
  end.

Definition insertion_sort (strict : bool) (l : list Signal) : list Signal :=
  fold_right (insert_desc strict) [] l.

(** ** AnalyticsEngine.analyze_all *)

Definition spread_step (e : AnalyticsEngine) (signals : list Signal)
    (it : string * cell) : list Signal :=
  let '(_, team) := it in
  match _get_metrics (df e) "Spread" team with
  | Some m =>
      let score := _calculate_score "Spread" m team in
      let risk := _get_risk_label score in
      signals ++
      [ {| Market := "SPREAD"; Selection := team; Score := score; Risk := risk;
           Safe_Bet_Line := str team ++ " " ++ format_1f (close_line m + spread_buffer e);
           Metrics := m |} ]
  | None => signals
  end.

Definition total_step (e : AnalyticsEngine) (signals : list Signal)
    (side : string) : list Signal :=
  match _get_metrics (df e) "Total" (Some side) with
  | Some m =>
      let score := _calculate_score "Total" m (Some side) in
      let risk := _get_risk_label score in
      let val := if String.eqb side "over"
                 then (close_line m - total_buffer e)%Q
                 else (close_line m + total_buffer e)%Q in
      signals ++
      [ {| Market := "TOTAL " ++ upper side; Selection := Some "Puncte";
           Score := score; Risk := risk;
           Safe_Bet_Line := title side ++ " " ++ format_1f val;
           Metrics := m |} ]
  | None => signals
  end.

Definition moneyline_step (e : AnalyticsEngine) (signals : list Signal)
    (it : string * cell) : list Signal :=
  let '(_, team) := it in
  match _get_metrics (df e) "Moneyline" team with
  | Some m =>
      let score := _calculate_score "Moneyline" m team in
      let risk := _get_risk_label score in
      let rec := if Qltb (current_odds m) 2 then "Victorie (ML)"
                 else "Evită / H+ Alternativ" in
      signals ++
      [ {| Market := "MONEYLINE"; Selection := team; Score := score; Risk := risk;
           Safe_Bet_Line := rec; Metrics := m |} ]
  | None => signals
  end.

(** The three loops of [analyze_all], threading the list [signals]. *)
Definition collect_signals (e : AnalyticsEngine) : list Signal :=
  let signals := [] in
  let signals := fold_left (spread_step e) (items (teams e)) signals in
  let signals := fold_left (total_step e) ["over"; "under"] signals in
  let signals := fold_left (moneyline_step e) (items (teams e)) signals in
  signals.

(** [pd.DataFrame(signals)] of an empty list has no column at all, so
    [sort_values('Score')] raises [KeyError('Score')] on it. *)
Definition analyze_all `{SortKind} (e : AnalyticsEngine) : result (list Signal) :=
  match collect_signals e with
  | [] => Raise (KeyError "Score")
  | signals => Ok (sort_values signals)
  end.

(** ** The design's tables, for comparison with the code *)

(** The scoring table of the design, one adjustment per row. *)
Definition flow_adjustment (m : Metric) : Z :=
  if Qltb (5 # 10) (money_flow m) then 2
  else if Qltb (money_flow m) (- (5 # 10)) then -2
  else 0.

Definition market_adjustment (mt : string) (m : Metric) (selection : cell) : Z :=
  if String.eqb mt "Spread" then
    if Qltb (close_line m) (open_line m) then 2 else -1
  else if String.eqb mt "Total" then
    if cell_eq selection (Some "over") then
      if Qltb (close_line m) (open_line m) && Qltb 0 (money_flow m) then 3 else 0
    else if cell_eq selection (Some "under") then
      if Qltb (open_line m) (close_line m) && Qltb 0 (money_flow m) then 3 else 0
    else 0
  else if String.eqb mt "Moneyline" then
    if Qltb (15 # 10) (money_flow m) then 3 else 0
  else 0.

Definition clamp (lo hi x : Z) : Z := Z.max lo (Z.min hi x).

Definition LOW : string := "SCĂZUT".
Definition MEDIUM : string := "MEDIU".
Definition HIGH : string := "RIDICAT".

(** ** The pairs examined by analyze_all *)

(** The (market, selection) pairs that [analyze_all] examines, in the
    order of its three loops. *)
Inductive pass : Type :=
| SpreadOf (team : cell)
| TotalOf (side : string)
| MoneylineOf (team : cell).

Definition passes (e : AnalyticsEngine) : list pass :=
  [SpreadOf (home (teams e)); SpreadOf (away (teams e));
   TotalOf "over"; TotalOf "under";
   MoneylineOf (home (teams e)); MoneylineOf (away (teams e))].

Definition pair_of (p : pass) : string * cell :=
  match p with
  | SpreadOf t => ("Spread", t)
  | TotalOf s => ("Total", Some s)
  | MoneylineOf t => ("Moneyline", t)
  end.

(** The rows that match a pair, and what one loop iteration appends for
    it. *)
Definition matching (e : AnalyticsEngine) (p : pass) : DataFrame :=
  subset_of (df e) (fst (pair_of p)) (snd (pair_of p)).

Definition emitted (e : AnalyticsEngine) (p : pass) : list Signal :=
  match p with
  | SpreadOf t => spread_step e [] ("", t)
  | TotalOf s => total_step e [] s
  | MoneylineOf t => moneyline_step e [] ("", t)
  end.

(** ** Order of ties *)




(** ** The windows of _get_metrics *)

(** [open_slice] and [close_slice] as [_get_metrics] cuts them from the
    rows that match a pair. *)
Definition open_slice_of (d : DataFrame) (mt : string) (selection : cell) : DataFrame :=
  let subset := subset_of d mt selection in
  iloc_head (window (length subset)) subset.

Definition close_slice_of (d : DataFrame) (mt : string) (selection : cell) : DataFrame :=
  let subset := subset_of d mt selection in
  iloc_tail (window (length subset)) subset.

(** ** create_analysis_chart *)

(** A row of [filtered_df] once the chart columns are added. *)
Record ChartRow : Type := mkChartRow {
  source_row : Observation;
  plot_value : Q;
  side_label : cell;
  probability : Q;
  flow_delta : Q;
  flow_magnitude : Q
}.

(** What the function hands to Plotly: the frame of the scatter plot
    (x = timestamp, y = plot_value, size = flow_magnitude,
    color = flow_delta), the title, the y axis label and the height of
    the dotted opening line. *)
Record Figure : Type := mkFigure {
  points : list ChartRow;
  fig_title : string;
  yaxis_title : string;
  hline : Q
}.

(** The three ways the call ends: [return None], [return fig], or the
    UnboundLocalError of reading [filtered_df] when neither branch
    assigned it. *)
Inductive chart_result : Type :=
| NoChart
| Chart (fig : Figure)
| UnboundLocalError (name : string).

(** [opener_prob = 1 / opener_odds if opener_odds else 0] *)
Definition opener_prob_of (first : Observation) : Q :=
  let opener_odds := decimal_odds first in
  if Qeq_bool opener_odds 0 then 0%Q else (1 / opener_odds)%Q.

(** The columns [plot_value], [side_label], [probability], [flow_delta]
    and [flow_magnitude] of one row.  [1 / x] on the column keeps the
    model's convention [1 / 0 = 0]; pandas gives an infinity there, which
    is outside the model. *)
Definition add_chart_columns (opener_prob : Q) (value : Observation -> Q)
    (label : Observation -> cell) (r : Observation) : ChartRow :=
  let p := (1 / decimal_odds r)%Q in
  let delta := ((p - opener_prob) * 100)%Q in
  mkChartRow r (value r) (label r) p delta (Qabs delta).

Definition create_analysis_chart (d : DataFrame) (mt : string) (tm : cell)
  : chart_result :=
  let prepared :=
    if String.eqb mt "Spread" || String.eqb mt "Moneyline" then
      let filtered_df :=
        filter (fun r => String.eqb (market_type r) mt && cell_eq (team r) tm) d in
      let y_axis_label :=
        if String.eqb mt "Spread" then ("Linie " ++ mt ++ " (puncte)")%string
        else "Cota Decimală" in
      let value := if String.eqb mt "Moneyline" then decimal_odds else line in
      Some (filtered_df, value, team, y_axis_label)
    else if String.eqb mt "Total" then
      let filtered_df := filter (fun r => String.eqb (market_type r) "Total") d in
      Some (filtered_df, line, side, "Total Puncte")
    else None in
  match prepared with
  | None => UnboundLocalError "filtered_df"
  | Some (filtered_df, value, label, y_axis_label) =>
      match filtered_df with
      | [] => NoChart
      | first :: _ =>
          Chart {| points :=
                     map (add_chart_columns (opener_prob_of first) value label)
                         filtered_df;
                   fig_title :=
                     ("Evoluția Liniei vs. Money Flow (Intensitatea Smart Money) - "
                      ++ mt)%string;
                   yaxis_title := y_axis_label;
                   hline := value first |}
      end
  end.

(** The markets charted per team. *)
Definition is_chart_market (mt : string) : bool :=
  String.eqb mt "Spread" || String.eqb mt "Moneyline".

(** ** main: the risk colours *)

Definition COLOR_MAP : list (string * string) :=
  [("SCAZUT", "#00ff41"); ("MEDIU", "#ffff00"); ("RIDICAT", "#ff0000")].

(** [d.get(key)] *)
Fixpoint dict_lookup (d : list (string * string)) (key : string) : option string :=
  match d with
  | [] => None
  | (k, v) :: d' => if String.eqb k key then Some v else dict_lookup d' key
  end.

(** [d.get(key, default)] *)
Definition dict_get (d : list (string * string)) (key default : string) : string :=
  match dict_lookup d key with
  | Some v => v
  | None => default
  end.

(** [d[key]] *)
Definition dict_item (d : list (string * string)) (key : string) : result string :=
  match dict_lookup d key with
  | Some v => Ok v
  | None => Raise (KeyError key)
  end.

(** The cell styler of the recommendation table. *)
Definition color_risk (val : string) : result string :=
  let color := dict_get COLOR_MAP val "black" in
  if negb (String.eqb val "SCĂZUT") then
    Ok ("background-color: " ++ color ++ "; color: black; font-weight: bold")%string
  else
    c <- dict_item COLOR_MAP "SCAZUT" ;;
    Ok ("color: " ++ c ++ "; font-weight: bold")%string.

(** ** The default sort of sort_values *)

(** [sort_values('Score', ascending=False)] leaves [kind] at its default,
    'quicksort'.  Pandas ([nargsort]) reverses the key column, asks numpy
    for an ascending argsort of it and reverses the positions obtained.
    For int64 keys on x86 with AVX-512 numpy's quicksort kind sorts an
    array of up to 8 keys in one register of 8 lanes with a bitonic
    network (x86-simd-sort): lanes past the keys hold the largest value
    and position 0, and a compare-exchange moves a position only when
    the two keys differ.  [analyze_all] sorts at most 6 rows; the wider
    networks and the partition loop for longer arrays are not modelled,
    and [load_lanes] reads the first 8 keys only. *)
Record lane : Type := mkLane {
  lane_key : option Z;
  lane_arg : nat
}.

(** [key a > key b], a padding lane being above every key. *)
Definition lane_gtb (a b : lane) : bool :=
  match lane_key a, lane_key b with
  | Some x, Some y => y <? x
  | None, Some _ => true
  | _, None => false
  end.

(** [cmp_merge]: the smaller key to the first lane, the larger to the
    second; on equal keys both lanes keep what they hold. *)
Definition cmp_merge (a b : lane) : lane * lane :=
  if lane_gtb a b then (b, a) else (a, b).

Definition register : Type :=
  (lane * lane * lane * lane * lane * lane * lane * lane)%type.

(** Lanes 0-1, 2-3, 4-5, 6-7. *)
Definition cx_adjacent (r : register) : register :=
  let '(a0, a1, a2, a3, a4, a5, a6, a7) := r in
  let '(a0, a1) := cmp_merge a0 a1 in
  let '(a2, a3) := cmp_merge a2 a3 in
  let '(a4, a5) := cmp_merge a4 a5 in
  let '(a6, a7) := cmp_merge a6 a7 in
  (a0, a1, a2, a3, a4, a5, a6, a7).

(** Lanes 0-3, 1-2, 4-7, 5-6. *)
Definition cx_reverse4 (r : register) : register :=
  let '(a0, a1, a2, a3, a4, a5, a6, a7) := r in
  let '(a0, a3) := cmp_merge a0 a3 in
  let '(a1, a2) := cmp_merge a1 a2 in
  let '(a4, a7) := cmp_merge a4 a7 in
  let '(a5, a6) := cmp_merge a5 a6 in
  (a0, a1, a2, a3, a4, a5, a6, a7).

(** Lanes 0-7, 1-6, 2-5, 3-4. *)
Definition cx_reverse8 (r : register) : register :=
  let '(a0, a1, a2, a3, a4, a5, a6, a7) := r in
  let '(a0, a7) := cmp_merge a0 a7 in
  let '(a1, a6) := cmp_merge a1 a6 in
  let '(a2, a5) := cmp_merge a2 a5 in
  let '(a3, a4) := cmp_merge a3 a4 in
  (a0, a1, a2, a3, a4, a5, a6, a7).

(** Lanes 0-2, 1-3, 4-6, 5-7. *)
Definition cx_distance2 (r : register) : register :=
  let '(a0, a1, a2, a3, a4, a5, a6, a7) := r in
  let '(a0, a2) := cmp_merge a0 a2 in
  let '(a1, a3) := cmp_merge a1 a3 in
  let '(a4, a6) := cmp_merge a4 a6 in
  let '(a5, a7) := cmp_merge a5 a7 in
  (a0, a1, a2, a3, a4, a5, a6, a7).

(** The six steps of the 8-lane network. *)
Definition sort_zmm_64bit (r : register) : register :=
  let r := cx_adjacent r in
  let r := cx_reverse4 r in
  let r := cx_adjacent r in
  let r := cx_reverse8 r in
  let r := cx_distance2 r in
  cx_adjacent r.

Definition load_lane (keys : list Z) (i : nat) : lane :=
  match nth_error keys i with
  | Some k => mkLane (Some k) i
  | None => mkLane None 0
  end.

Definition load_lanes (keys : list Z) : register :=
  (load_lane keys 0, load_lane keys 1, load_lane keys 2, load_lane keys 3,
   load_lane keys 4, load_lane keys 5, load_lane keys 6, load_lane keys 7).

Definition lanes_of (r : register) : list lane :=
  let '(a0, a1, a2, a3, a4, a5, a6, a7) := r in
  [a0; a1; a2; a3; a4; a5; a6; a7].

(** [keys.argsort(kind='quicksort')] for at most 8 keys: the positions
    held by the first [len(keys)] lanes after the network. *)
Definition npy_aquicksort (keys : list Z) : list nat :=
  map lane_arg (firstn (length keys) (lanes_of (sort_zmm_64bit (load_lanes keys)))).

(** [nargsort(items, ascending=False)] *)
Definition nargsort_desc (items : list Z) : list nat :=
  let idx := seq 0 (length items) in
  let nonnan := rev items in
  let nonnan_idx := rev idx in
  let indexer := map (fun p => nth p nonnan_idx 0%nat) (npy_aquicksort nonnan) in
  rev indexer.

(** [df.take(indexer)] *)
Definition take {A} (rows : list A) (indexer : list nat) : list A :=
  flat_map (fun i => match nth_error rows i with
                     | Some r => [r]
                     | None => []
                     end) indexer.

Definition sort_values_default {A} (score : A -> Z) (rows : list A) : list A :=
  take rows (nargsort_desc (map score rows)).

(** [analyze_all] with the sort it calls. *)
Definition analyze_all_default (e : AnalyticsEngine) : result (list Signal) :=
  match collect_signals e with
  | [] => Raise (KeyError "Score")
  | signals => Ok (sort_values_default Score signals)
  end.

(** ** Binary64 layer *)

(** Where a printed digit or a strict bound depends on rounding, the
    numbers of the code are modelled as binary64 values ([float]) with
    the IEEE 754 operations Python applies to them. *)

(** The conversion of [load_data] (line 25) on binary64. *)
Definition american_to_decimal_b64 (odds : float) : float :=
  if (0 <=? odds)%float then (1 + odds / 100)%float
  else (1 - 100 / odds)%float.

(** The binary64 value of an integer cell; exact below 2^53. *)
Definition float_of_Z (z : Z) : float :=
  match z with
  | Z0 => 0%float
  | Zpos p => of_uint63 (Uint63.of_Z (Zpos p))
  | Zneg p => (- of_uint63 (Uint63.of_Z (Zpos p)))%float
  end.

(** The exact value of a finite binary64 number [(-1)^s * m * 2^e]. *)
Definition Q_of_finite (s : bool) (m : positive) (e : Z) : Q :=
  let magnitude :=
    match e with
    | Zneg p => (Zpos m # Pos.pow 2 p)%Q
    | _ => inject_Z (Zpos m * 2 ^ e)
    end in
  if s then (- magnitude)%Q else magnitude.

(** [f"{x:.1f}"] of a binary64 value: the decimal with one digit nearest
    to the exact value, an exact half going to the even digit. *)
Definition format_1f_b64 (x : float) : string :=
  match Prim2SF x with
  | S754_nan => "nan"
  | S754_infinity s => if s then "-inf" else "inf"
  | S754_zero s => if s then "-0.0" else "0.0"
  | S754_finite s m e => format_1f (Q_of_finite s m e)
  end.

(** The metric dict and the signal dict with binary64 numbers. *)
Record MetricB64 : Type := mkMetricB64 {
  open_line_b64 : float;
  close_line_b64 : float;
  money_flow_b64 : float;
  current_odds_b64 : float
}.

Record SignalB64 : Type := mkSignalB64 {
  Market_b64 : string;
  Selection_b64 : cell;
  Score_b64 : Z;
  Risk_b64 : string;
  Safe_Bet_Line_b64 : string;
  Metrics_b64 : MetricB64
}.

Definition _calculate_score_b64 (mt : string) (m : MetricB64) (selection : cell) : Z :=
  let score := 5 in
  let score :=
    if (0.5 <? money_flow_b64 m)%float then score + 2
    else if (money_flow_b64 m <? -0.5)%float then score - 2
    else score in
  let score :=
    if String.eqb mt "Spread" then
      let line_tightened := (close_line_b64 m <? open_line_b64 m)%float in
      if line_tightened then score + 2 else score - 1
    else if String.eqb mt "Total" then
      if cell_eq selection (Some "over")
         && (close_line_b64 m <? open_line_b64 m)%float
         && (0 <? money_flow_b64 m)%float then score + 3
      else if cell_eq selection (Some "under")
              && (open_line_b64 m <? close_line_b64 m)%float
              && (0 <? money_flow_b64 m)%float then score + 3
      else score
    else if String.eqb mt "Moneyline" then
      if (1.5 <? money_flow_b64 m)%float then score + 3 else score
    else score in
  Z.max 1 (Z.min 10 score).

Section AnalyzeAllB64.

(** [self._get_metrics]: its binary64 results come out of pandas'
    [mean], whose order of summation is the library's; the loops are
    modelled for whatever metrics it returns. *)
Variable get_metrics : string -> cell -> option MetricB64.

(** [self.spread_buffer], [self.total_buffer], [self.teams]. *)
Variable spread_buffer_b64 : float.
Variable total_buffer_b64 : float.
Variable teams_b64 : Teams.

Definition spread_step_b64 (signals : list SignalB64) (it : string * cell)
  : list SignalB64 :=
  let '(_, team) := it in
  match get_metrics "Spread" team with
  | Some m =>
      let score := _calculate_score_b64 "Spread" m team in
      let risk := _get_risk_label score in
      signals ++
      [ {| Market_b64 := "SPREAD"; Selection_b64 := team; Score_b64 := score;
           Risk_b64 := risk;
           Safe_Bet_Line_b64 :=
             (str team ++ " "
              ++ format_1f_b64 (close_line_b64 m + spread_buffer_b64)%float)%string;
           Metrics_b64 := m |} ]
  | None => signals
  end.

Definition total_step_b64 (signals : list SignalB64) (side : string)
  : list SignalB64 :=
  match get_metrics "Total" (Some side) with
  | Some m =>
      let score := _calculate_score_b64 "Total" m (Some side) in
      let risk := _get_risk_label score in
      let val := if String.eqb side "over"
                 then (close_line_b64 m - total_buffer_b64)%float
                 else (close_line_b64 m + total_buffer_b64)%float in
      signals ++
      [ {| Market_b64 := ("TOTAL " ++ upper side)%string;
           Selection_b64 := Some "Puncte"; Score_b64 := score; Risk_b64 := risk;
           Safe_Bet_Line_b64 := (title side ++ " " ++ format_1f_b64 val)%string;
           Metrics_b64 := m |} ]
  | None => signals
  end.

Definition moneyline_step_b64 (signals : list SignalB64) (it : string * cell)
  : list SignalB64 :=
  let '(_, team) := it in
  match get_metrics "Moneyline" team with
  | Some m =>
      let score := _calculate_score_b64 "Moneyline" m team in
      let risk := _get_risk_label score in
      let rec := if (current_odds_b64 m <? 2)%float then "Victorie (ML)"
                 else "Evită / H+ Alternativ" in
      signals ++
      [ {| Market_b64 := "MONEYLINE"; Selection_b64 := team; Score_b64 := score;
           Risk_b64 := risk; Safe_Bet_Line_b64 := rec; Metrics_b64 := m |} ]
  | None => signals
  end.

(** The three loops of [analyze_all]. *)
Definition collect_signals_b64 : list SignalB64 :=
  let signals := [] in
  let signals := fold_left spread_step_b64 (items teams_b64) signals in
  let signals := fold_left total_step_b64 ["over"; "under"] signals in
  let signals := fold_left moneyline_step_b64 (items teams_b64) signals in
  signals.

(** The frame returned: the collected rows in the order of the sort.
    An empty list of signals raises as in [analyze_all]. *)
Definition analyze_all_b64 : result (list SignalB64) :=
  match collect_signals_b64 with
  | [] => Raise (KeyError "Score")
  | signals => Ok (sort_values_default Score_b64 signals)
  end.

End AnalyzeAllB64.

(** The defaults of [__init__]. *)
Definition default_spread_buffer_b64 : float := 3.5%float.
Definition default_total_buffer_b64 : float := 6%float.

(** ** Checks used by the proofs *)

(** [P] on every integer of [lo, lo + 2^depth). *)
Fixpoint forall_range (depth : nat) (lo : Z) (P : Z -> bool) : bool :=
  match depth with
  | O => P lo
  | S d => forall_range d lo P && forall_range d (lo + 2 ^ Z.of_nat d) P
  end.

(** What the conversion must do at the integer odds [z]. *)
Definition converts_above_1 (z : Z) : bool :=
  let odds := float_of_Z z in
  Bool.eqb (0 <=? odds)%float (0 <=? z) && (1 <? american_to_decimal_b64 odds)%float.

(** The recommendation a signal must carry, from its own market,
    selection and metrics. *)
Definition recommended (sb tb : float) (s : SignalB64) : string :=
  let m := Metrics_b64 s in
  if String.eqb (Market_b64 s) "SPREAD" then
    (str (Selection_b64 s) ++ " " ++ format_1f_b64 (close_line_b64 m + sb)%float)%string
  else if String.eqb (Market_b64 s) "TOTAL OVER" then
    ("Over " ++ format_1f_b64 (close_line_b64 m - tb)%float)%string
  else if String.eqb (Market_b64 s) "TOTAL UNDER" then
    ("Under " ++ format_1f_b64 (close_line_b64 m + tb)%float)%string
  else if (current_odds_b64 m <? 2)%float then "Victorie (ML)"
  else "Evită / H+ Alternativ".

(** The scores [_calculate_score] can return. *)
Definition score_values : list Z := [2; 3; 4; 5; 6; 7; 8; 9; 10].

(** Every list over [vals] of length at most [n]. *)
Fixpoint lists_upto (vals : list Z) (n : nat) : list (list Z) :=
  match n with
  | O => [[]]
  | S n' => [] :: flat_map (fun l => map (fun v => v :: l) vals) (lists_upto vals n')
  end.

(** [idx] holds each position below [n] and has [n] entries. *)
Definition is_indexer (n : nat) (idx : list nat) : bool :=
  (length idx =? n)%nat && forallb (fun i => existsb (Nat.eqb i) idx) (seq 0 n).

Fixpoint descendingb (l : list Z) : bool :=
  match l with
  | a :: (b :: _) as t => (b <=? a) && descendingb t
  | _ => true
  end.


(** The default sort orders the keys [items] by descending value. *)
Definition sorts_desc (items : list Z) : bool :=
  let idx := nargsort_desc items in
  is_indexer (length items) idx
  && descendingb (map (fun i => nth i items 0) idx).


(** ** Sample frames *)

Definition obs (ts : Z) (mt : string) (sd tm : cell) (o l : Q) : Observation :=
  mkObservation ts mt sd tm o l (american_to_decimal o).

(** A frame read from a file that holds the header line only. *)
Definition df_header_only : DataFrame := [].

Definition rows_for (mt : string) (sd tm : cell) (o : Q) (lines : list Q) : DataFrame :=
  map (fun l => obs 0 mt sd tm o l) lines.

(** Two quotes only: both teams are found, no pair reaches 5 rows. *)
Definition df_thin : DataFrame :=
  [obs 1 "Spread" (Some "home") (Some "Clippers") (-110) (-3);
   obs 2 "Spread" (Some "away") (Some "Magic") (-110) 3].

(** Five flat Spread quotes per team: two signals of equal score. *)
Definition df_ties : DataFrame :=
  rows_for "Spread" (Some "home") (Some "Clippers") (-110) [-3; -3; -3; -3; -3]%Q
  ++ rows_for "Spread" (Some "away") (Some "Magic") (-110) [3; 3; 3; 3; 3]%Q.

(** Ten Moneyline quotes at -150 for the home team, two for the away team. *)
Definition df_moneyline : DataFrame :=
  rows_for "Moneyline" (Some "home") (Some "TeamA") (-150) [0; 0; 0; 0; 0; 0; 0; 0; 0; 0]%Q
  ++ rows_for "Moneyline" (Some "away") (Some "TeamB") 130 [0; 0]%Q.

(** Three Total quotes of both sides, without team. *)
Definition df_totals : DataFrame :=
  [obs 1 "Total" (Some "over") NaN (-110) 210;
   obs 2 "Total" (Some "under") NaN (-105) 210;
   obs 3 "Total" (Some "over") NaN (-120) 211].

Definition engine_thin : AnalyticsEngine :=
  mkEngine df_thin default_spread_buffer default_total_buffer
           (mkTeams (Some "Clippers") (Some "Magic")).

Definition engine_ties : AnalyticsEngine :=
  mkEngine df_ties default_spread_buffer default_total_buffer
           (mkTeams (Some "Clippers") (Some "Magic")).

Definition engine_moneyline : AnalyticsEngine :=
  mkEngine df_moneyline default_spread_buffer default_total_buffer
           (mkTeams (Some "TeamA") (Some "TeamB")).

(** Flat quotes in both markets for both teams: two Spread signals of
    score 4 and two Moneyline signals of score 5. *)
Definition df_flat : DataFrame :=
  rows_for "Spread" (Some "home") (Some "Clippers") (-110) [-3; -3; -3; -3; -3]%Q
  ++ rows_for "Spread" (Some "away") (Some "Magic") (-110) [3; 3; 3; 3; 3]%Q
  ++ rows_for "Moneyline" (Some "home") (Some "Clippers") (-150) [0; 0; 0; 0; 0]%Q
  ++ rows_for "Moneyline" (Some "away") (Some "Magic") 130 [0; 0; 0; 0; 0]%Q.

Definition engine_flat : AnalyticsEngine :=
  mkEngine df_flat default_spread_buffer default_total_buffer
           (mkTeams (Some "Clippers") (Some "Magic")).

(** Metrics as the design's scenarios give them: Spread for TeamB
    tightening from -3.0 to -5.5, Spread for TeamA flat at 1.15, Total
    under from 210 to 213, Moneyline for TeamA at constant odds -150. *)
Definition sample_metrics_b64 (mt : string) (selection : cell) : option MetricB64 :=
  if String.eqb mt "Spread" && cell_eq selection (Some "TeamB") then
    Some (mkMetricB64 (-3) (-5.5) 1.2 1.9)
  else if String.eqb mt "Spread" && cell_eq selection (Some "TeamA") then
    Some (mkMetricB64 1.15 1.15 0 1.9)
  else if String.eqb mt "Total" && cell_eq selection (Some "under") then
    Some (mkMetricB64 210 213 0.8 1.9)
  else if String.eqb mt "Moneyline" && cell_eq selection (Some "TeamA") then
    Some (mkMetricB64 0 0 0 (american_to_decimal_b64 (-150)))
  else None.

(** * Properties *)

(** ** Formatting *)

Example format_1f_samples :
  format_1f (-2) = "-2.0" /\ format_1f 219 = "219.0" /\
  format_1f (1 # 4) = "0.2" /\ format_1f (3 # 4) = "0.8" /\
  format_1f (- (1 # 25)) = "-0.0" /\ format_1f (2111 # 10) = "211.1".
Proof. repeat split; vm_compute; reflexivity. Qed.

Example case_samples :
  upper "over" = "OVER" /\ title "under" = "Under" /\ title "over" = "Over".
Proof. repeat split; reflexivity. Qed.

(** ** Comparisons on rationals *)

Lemma Qltb_lt (a b : Q) : Qltb a b = true <-> (a < b)%Q.
Proof.
  unfold Qltb. rewrite negb_true_iff, <- not_true_iff_false, Qle_bool_iff.
  split; [apply Qnot_le_lt | apply Qlt_not_le].
Qed.

Lemma Qltb_ge (a b : Q) : Qltb a b = false <-> (b <= a)%Q.
Proof.
  unfold Qltb. rewrite negb_false_iff. apply Qle_bool_iff.
Qed.

(** ** Scoring *)

Lemma clamp_range (lo hi x : Z) : lo <= hi -> lo <= clamp lo hi x <= hi.
Proof. unfold clamp. lia. Qed.

Lemma flow_adjustment_cases (m : Metric) :
  ((5 # 10 < money_flow m)%Q /\ flow_adjustment m = 2) \/
  ((money_flow m < - (5 # 10))%Q /\ flow_adjustment m = -2) \/
  ((- (5 # 10) <= money_flow m <= 5 # 10)%Q /\ flow_adjustment m = 0).
Proof.
  unfold flow_adjustment.
  destruct (Qltb (5 # 10) (money_flow m)) eqn:E1.
  - left. split; [apply Qltb_lt; exact E1 | reflexivity].
  - destruct (Qltb (money_flow m) (- (5 # 10))) eqn:E2.
    + right; left. split; [apply Qltb_lt; exact E2 | reflexivity].
    + right; right. apply Qltb_ge in E1, E2. auto.
Qed.

(** The market adjustment, condition by condition. *)
Lemma market_adjustment_cases (m : Metric) (selection : cell) :
  ((close_line m < open_line m)%Q ->
     market_adjustment "Spread" m selection = 2) /\
  ((open_line m <= close_line m)%Q ->
     market_adjustment "Spread" m selection = -1) /\
  ((close_line m < open_line m)%Q /\ (0 < money_flow m)%Q ->
     market_adjustment "Total" m (Some "over") = 3) /\
  ((open_line m < close_line m)%Q /\ (0 < money_flow m)%Q ->
     market_adjustment "Total" m (Some "under") = 3) /\
  ((15 # 10 < money_flow m)%Q ->
     market_adjustment "Moneyline" m selection = 3) /\
  ((money_flow m <= 15 # 10)%Q ->
     market_adjustment "Moneyline" m selection = 0).
Proof.
  unfold market_adjustment. cbn [String.eqb Ascii.eqb Bool.eqb cell_eq].
  repeat split.
  - intros H. apply Qltb_lt in H. rewrite H. reflexivity.
  - intros H. apply Qltb_ge in H. rewrite H. reflexivity.
  - intros [H1 H2]. apply Qltb_lt in H1, H2. rewrite H1, H2. reflexivity.
  - intros [H1 H2]. apply Qltb_lt in H1, H2. rewrite H1, H2. reflexivity.
  - intros H. apply Qltb_lt in H. rewrite H. reflexivity.
  - intros H. apply Qltb_ge in H. rewrite H. reflexivity.
Qed.

Lemma over_not_under (c : cell) :
  cell_eq c (Some "over") = true -> cell_eq c (Some "under") = false.
Proof.
  destruct c as [s |]; simpl; [| discriminate].
  intros H. apply String.eqb_eq in H. subst s. reflexivity.
Qed.

Lemma calculate_score_clamped (mt : string) (m : Metric) (selection : cell) :
  _calculate_score mt m selection
    = clamp 1 10 (5 + flow_adjustment m + market_adjustment mt m selection).
Proof.
  unfold _calculate_score, flow_adjustment, market_adjustment, clamp.
  destruct (Qltb (5 # 10) (money_flow m));
    destruct (Qltb (money_flow m) (- (5 # 10)));
    destruct (String.eqb mt "Spread");
    destruct (String.eqb mt "Total");
    destruct (String.eqb mt "Moneyline");
    destruct (Qltb (close_line m) (open_line m));
    destruct (Qltb (open_line m) (close_line m));
    destruct (Qltb 0 (money_flow m));
    destruct (Qltb (15 # 10) (money_flow m));
    destruct (cell_eq selection (Some "over")) eqn:Eover;
    try rewrite (over_not_under _ Eover);
    try destruct (cell_eq selection (Some "under"));
    reflexivity.
Qed.

(** C7 -- the score is the baseline 5, plus the money-flow adjustment
    (+2 above 0.5, -2 below -0.5), plus the one adjustment of the market
    (Spread +2 / -1, Total over or under +3, Moneyline +3), clamped to
    the closed range 1..10. *)
Theorem calculate_score_table (mt : string) (m : Metric) (selection : cell) :
  _calculate_score mt m selection
    = clamp 1 10 (5 + flow_adjustment m + market_adjustment mt m selection) /\
  1 <= _calculate_score mt m selection <= 10.
Proof.
  split; [apply calculate_score_clamped |].
  rewrite calculate_score_clamped. apply clamp_range. lia.
Qed.

(** C10 -- a Spread score stays within 2..9: its two adjustments add up
    to at most +4 and at least -3; Total and Moneyline scores do reach
    10. *)
Theorem spread_score_range :
  (forall m selection,
      -3 <= flow_adjustment m + market_adjustment "Spread" m selection <= 4 /\
      2 <= _calculate_score "Spread" m selection <= 9) /\
  (exists m selection, _calculate_score "Total" m selection = 10) /\
  (exists m selection, _calculate_score "Moneyline" m selection = 10).
Proof.
  split; [| split].
  - intros m selection.
    rewrite calculate_score_clamped. unfold clamp, flow_adjustment, market_adjustment.
    change (String.eqb "Spread" "Spread") with true. cbv iota.
    destruct (Qltb (5 # 10) (money_flow m));
      destruct (Qltb (money_flow m) (- (5 # 10)));
      destruct (Qltb (close_line m) (open_line m)); lia.
  - exists (mkMetric 210 213 (8 # 10) 2), (Some "under"). reflexivity.
  - exists (mkMetric 0 0 2 (3 # 2)), (Some "TeamA"). reflexivity.
Qed.

(** ** Risk label *)

(** C8 -- the risk label is a function of the score alone, defined on
    every integer: LOW from 7 up, MEDIUM for 5 and 6, HIGH below 5; on
    1..10 it is one of the three. *)
Theorem risk_label_tiers :
  (forall score, 7 <= score -> _get_risk_label score = LOW) /\
  (forall score, 5 <= score <= 6 -> _get_risk_label score = MEDIUM) /\
  (forall score, score < 5 -> _get_risk_label score = HIGH) /\
  (forall score, 1 <= score <= 10 ->
     _get_risk_label score = LOW \/ _get_risk_label score = MEDIUM \/
     _get_risk_label score = HIGH).
Proof.
  unfold _get_risk_label, LOW, MEDIUM, HIGH.
  repeat split; intros score H;
    destruct (Z.leb_spec 7 score); destruct (Z.leb_spec 5 score);
    auto; lia.
Qed.

(** ** Window metrics *)

Lemma implied_prob_spec (a : Q) :
  ((0 < a)%Q -> implied_prob a = (1 / a)%Q) /\
  ((a <= 0)%Q -> implied_prob a = 0%Q).
Proof.
  unfold implied_prob. split; intros H.
  - apply Qltb_lt in H. rewrite H. reflexivity.
  - apply Qltb_ge in H. rewrite H. reflexivity.
Qed.

(** [int(count * 0.15)] is the integer quotient of [15 * count] by 100. *)
Lemma window_floor (count : nat) :
  window count = Nat.max 3 (count * 15 / 100).
Proof.
  unfold window.
  change (Qfloor (inject_Z (Z.of_nat count) * (15 # 100)))
    with (Z.of_nat count * 15 / 100).
  apply Nat2Z.inj.
  rewrite Z2Nat.id by lia.
  rewrite Nat2Z.inj_max, Nat2Z.inj_div, Nat2Z.inj_mul. reflexivity.
Qed.

Lemma window_bounds (count : nat) :
  (5 <= count)%nat -> (3 <= window count <= count)%nat.
Proof.
  intros H. rewrite window_floor.
  assert (count * 15 / 100 <= count)%nat.
  { apply Nat.Div0.div_le_upper_bound. lia. }
  lia.
Qed.

Lemma iloc_tail_skipn {A} (n : nat) (l : list A) :
  (0 < n)%nat -> iloc_tail n l = skipn (length l - n) l.
Proof. destruct n; [lia | reflexivity]. Qed.

(** C6 -- on a filtered subset of at least 5 rows the window is
    [n = max(3, floor(0.15 * count))], the open and close slices are the
    first and the last [n] rows, the implied probability of a window is
    [1 / avg_odds] when the average is positive and 0 otherwise, and
    [money_flow = (prob_close - prob_open) * 100]. *)
Theorem get_metrics_money_flow (d : DataFrame) (mt : string) (selection : cell) :
  let subset := subset_of d mt selection in
  let count := length subset in
  let n := Nat.max 3 (count * 15 / 100) in
  let open_slice := firstn n subset in
  let close_slice := skipn (count - n) subset in
  let avg_open_odds := mean (map decimal_odds open_slice) in
  let avg_close_odds := mean (map decimal_odds close_slice) in
  (5 <= count)%nat ->
  length open_slice = n /\ length close_slice = n /\
  (forall a, ((0 < a)%Q -> implied_prob a = (1 / a)%Q) /\
             ((a <= 0)%Q -> implied_prob a = 0%Q)) /\
  exists m,
    _get_metrics d mt selection = Some m /\
    money_flow m
      = ((implied_prob avg_close_odds - implied_prob avg_open_odds) * 100)%Q /\
    current_odds m = avg_close_odds.
Proof.
  intros subset count n open_slice close_slice avg_open_odds avg_close_odds H.
  pose proof (window_bounds count H) as Hw.
  pose proof (window_floor count) as Hn. fold n in Hn. rewrite Hn in Hw.
  repeat split.
  - unfold open_slice. rewrite length_firstn. fold count. lia.
  - unfold close_slice. rewrite length_skipn. fold count. lia.
  - apply implied_prob_spec.
  - apply implied_prob_spec.
  - unfold _get_metrics. fold subset. fold count.
    destruct (Nat.ltb_spec count 5) as [Hlt | _]; [lia |].
    rewrite Hn. unfold iloc_head.
    rewrite iloc_tail_skipn by lia.
    fold count. fold open_slice. fold close_slice.
    destruct (String.eqb mt "Moneyline");
      eexists; (split; [reflexivity | split; reflexivity]).
Qed.

(** ** Match detection *)

(** On a frame with at least one row the detection returns. *)
Lemma detect_match_info_nonempty (d : DataFrame) :
  d <> [] -> exists t, _detect_match_info d = Ok t.
Proof.
  intros Hne. unfold _detect_match_info, try_except.
  destruct (h <- first_team d "home";; a <- first_team d "away";;
            Ok (mkTeams (Some h) (Some a))) as [t | _]; [eauto |].
  destruct d as [| r d']; [congruence |].
  cbn [map unique]. set (rest := filter _ _).
  cbn [index nth_error bind].
  destruct rest as [| c rest']; cbn; eauto.
Qed.

(** The fallback: first distinct team as home, second as away or
    "Unknown". *)
Lemma detect_match_info_fallback (d : DataFrame) (t : Teams) :
  (first_team d "home" = Raise IndexError \/ first_team d "away" = Raise IndexError) ->
  _detect_match_info d = Ok t ->
  nth_error (unique (map team d)) 0 = Some (home t) /\
  away t = nth 1 (unique (map team d)) (Some "Unknown").
Proof.
  intros Hfail. unfold _detect_match_info, try_except.
  assert (E : exists e, (h <- first_team d "home";; a <- first_team d "away";;
               Ok (mkTeams (Some h) (Some a))) = Raise e).
  { destruct Hfail as [H | H]; rewrite H; cbn; [eauto |].
    destruct (first_team d "home"); cbn; eauto. }
  destruct E as [e E]. rewrite E.
  destruct (unique (map team d)) as [| c [| c' rest]]; cbn; intros H;
    inversion H; subst; cbn; auto.
Qed.

(** C3 -- match detection on a frame without rows: both lookups fail, the
    fallback finds no team value and its [teams[0]] raises IndexError. *)
Theorem detect_match_info_empty_frame :
  _detect_match_info df_header_only = Raise IndexError /\
  new_engine df_header_only = Raise IndexError.
Proof. split; reflexivity. Qed.

(** Rows without any team value still give a match: a null home and
    "Unknown" as away. *)
Example detect_match_info_null_teams :
  _detect_match_info
    [obs 1 "Total" (Some "over") NaN (-110) 210;
     obs 2 "Total" (Some "under") NaN (-110) 210]
  = Ok (mkTeams NaN (Some "Unknown")).
Proof. reflexivity. Qed.

(** ** Sorting kinds *)

Lemma insert_desc_perm (strict : bool) (x : Signal) (l : list Signal) :
  Permutation (x :: l) (insert_desc strict x l).
Proof.
  induction l as [| y l' IH]; cbn [insert_desc]; [reflexivity |].
  destruct (if strict then Score y <? Score x else Score y <=? Score x).
  - reflexivity.
  - rewrite perm_swap. apply perm_skip. exact IH.
Qed.

Lemma insert_desc_sorted (strict : bool) (x : Signal) (l : list Signal) :
  StronglySorted desc l -> StronglySorted desc (insert_desc strict x l).
Proof.
  induction 1 as [| y l' Hs IH Hall]; cbn [insert_desc].
  - constructor; constructor.
  - destruct (if strict then Score y <? Score x else Score y <=? Score x) eqn:E.
    + assert (Hyx : Score y <= Score x).
      { destruct strict; [apply Z.ltb_lt in E | apply Z.leb_le in E]; lia. }
      constructor; [constructor; assumption |].
      constructor; [exact Hyx |].
      eapply Forall_impl; [| exact Hall].
      unfold desc. intros z Hz. lia.
    + assert (Hxy : Score x <= Score y).
      { destruct strict; [apply Z.ltb_ge in E | apply Z.leb_gt in E]; lia. }
      constructor; [exact IH |].
      apply (Permutation_Forall (insert_desc_perm strict x l')).
      constructor; assumption.
Qed.

Lemma insertion_sort_perm (strict : bool) (l : list Signal) :
  Permutation l (insertion_sort strict l).
Proof.
  induction l as [| x l' IH]; cbn; [constructor |].
  rewrite <- insert_desc_perm. apply perm_skip. exact IH.
Qed.

Lemma insertion_sort_sorted (strict : bool) (l : list Signal) :
  StronglySorted desc (insertion_sort strict l).
Proof.
  induction l as [| x l' IH]; cbn; [constructor |].
  apply insert_desc_sorted. exact IH.
Qed.

(** The kind that keeps equal scores in row order (what [kind='stable']
    gives). *)
Definition stable_kind : SortKind :=
  {| sort_values := insertion_sort false;
     sort_values_perm := insertion_sort_perm false;
     sort_values_desc := insertion_sort_sorted false |}.

(** ** Aggregation *)

Lemma spread_step_app e acc k t :
  spread_step e acc (k, t) = acc ++ emitted e (SpreadOf t).
Proof.
  cbn. destruct (_get_metrics (df e) "Spread" t);
    [reflexivity | symmetry; apply app_nil_r].
Qed.

Lemma total_step_app e acc s :
  total_step e acc s = acc ++ emitted e (TotalOf s).
Proof.
  cbn. unfold total_step. destruct (_get_metrics (df e) "Total" (Some s));
    [reflexivity | symmetry; apply app_nil_r].
Qed.

Lemma moneyline_step_app e acc k t :
  moneyline_step e acc (k, t) = acc ++ emitted e (MoneylineOf t).
Proof.
  cbn. destruct (_get_metrics (df e) "Moneyline" t);
    [reflexivity | symmetry; apply app_nil_r].
Qed.

(** The collected list is the concatenation, pair by pair, in encounter
    order: Spread home, Spread away, Total over, Total under, Moneyline
    home, Moneyline away. *)
Lemma collect_signals_passes (e : AnalyticsEngine) :
  collect_signals e = flat_map (emitted e) (passes e).
Proof.
  unfold collect_signals, passes, items. cbn [fold_left flat_map].
  rewrite !moneyline_step_app, !total_step_app, !spread_step_app.
  cbn [app]. rewrite app_nil_r, <- !app_assoc. reflexivity.
Qed.

Lemma get_metrics_none (d : DataFrame) (mt : string) (selection : cell) :
  _get_metrics d mt selection = None <->
  (length (subset_of d mt selection) < 5)%nat.
Proof.
  unfold _get_metrics.
  destruct (Nat.ltb_spec (length (subset_of d mt selection)) 5) as [H | H].
  - tauto.
  - destruct (String.eqb mt "Moneyline"); split; intros H'; [discriminate | lia | discriminate | lia].
Qed.

Lemma emitted_cases (e : AnalyticsEngine) (p : pass) :
  ((length (matching e p) < 5)%nat /\ emitted e p = []) \/
  ((5 <= length (matching e p))%nat /\ exists s, emitted e p = [s]).
Proof.
  unfold matching.
  destruct (_get_metrics (df e) (fst (pair_of p)) (snd (pair_of p))) as [m |] eqn:E.
  - right. split.
    + destruct (Nat.le_gt_cases 5 (length (subset_of (df e) (fst (pair_of p)) (snd (pair_of p)))))
        as [H | H]; [exact H |].
      apply get_metrics_none in H. congruence.
    + destruct p; cbn in E |- *; unfold total_step; rewrite E;
        eexists; reflexivity.
  - left. split; [apply get_metrics_none; exact E |].
    destruct p; cbn in E |- *; unfold total_step; rewrite E; reflexivity.
Qed.

Lemma analyze_all_ok `{SortKind} (e : AnalyticsEngine) (out : list Signal) :
  analyze_all e = Ok out ->
  collect_signals e <> [] /\ out = sort_values (collect_signals e).
Proof.
  unfold analyze_all. destruct (collect_signals e); [discriminate |].
  intros E. inversion E. split; [discriminate | reflexivity].
Qed.

Lemma analyze_all_nonempty `{SortKind} (e : AnalyticsEngine) :
  collect_signals e <> [] ->
  analyze_all e = Ok (sort_values (collect_signals e)).
Proof.
  unfold analyze_all. destruct (collect_signals e); [congruence | reflexivity].
Qed.

Example new_engine_samples :
  new_engine df_thin = Ok engine_thin /\
  new_engine df_ties = Ok engine_ties /\
  new_engine df_moneyline = Ok engine_moneyline.
Proof. repeat split; reflexivity. Qed.

(** ** Omitted pairs *)

Lemma collect_signals_nil (e : AnalyticsEngine) :
  collect_signals e = [] <->
  (forall p, In p (passes e) -> (length (matching e p) < 5)%nat).
Proof.
  rewrite collect_signals_passes. split.
  - intros Hnil p Hp.
    destruct (emitted_cases e p) as [[Hlt _] | [_ [s Hs]]]; [exact Hlt |].
    exfalso.
    assert (Hin : In s (flat_map (emitted e) (passes e))).
    { apply in_flat_map. exists p. split; [exact Hp |]. rewrite Hs. left. reflexivity. }
    rewrite Hnil in Hin. exact Hin.
  - intros Hall.
    destruct (flat_map (emitted e) (passes e)) as [| s l] eqn:E; [reflexivity |].
    assert (Hin : In s (flat_map (emitted e) (passes e))) by (rewrite E; left; reflexivity).
    apply in_flat_map in Hin. destruct Hin as (p & Hp & Hs).
    destruct (emitted_cases e p) as [[_ Hnil] | [Hge _]].
    + rewrite Hnil in Hs. destruct Hs.
    + specialize (Hall p Hp). lia.
Qed.

(** [analyze_all] raises exactly when every examined pair was omitted. *)
Lemma analyze_all_raises_iff `{SortKind} (e : AnalyticsEngine) :
  analyze_all e = Raise (KeyError "Score") <->
  (forall p, In p (passes e) -> (length (matching e p) < 5)%nat).
Proof.
  rewrite <- collect_signals_nil. unfold analyze_all.
  destruct (collect_signals e); split; intros E;
    try reflexivity; discriminate.
Qed.

(** C2 -- on a frame where both teams are found and no pair reaches 5
    rows, every pair is omitted and the call itself raises
    KeyError('Score') instead of returning an empty output. *)
Theorem analyze_all_all_omitted_raises (K : SortKind) :
  new_engine df_thin = Ok engine_thin /\
  collect_signals engine_thin = [] /\
  analyze_all engine_thin = Raise (KeyError "Score").
Proof. repeat split; reflexivity. Qed.

(** C5 -- the metrics of a pair are None exactly when fewer than 5 rows
    match it; a pair examined by [analyze_all] with fewer than 5 matching
    rows appends nothing, one with at least 5 appends one signal, the
    call then returns and that signal is in its output; the output holds
    exactly the appended signals. *)
Theorem insufficient_samples_omitted :
  (forall d mt selection,
      _get_metrics d mt selection = None <->
      (length (subset_of d mt selection) < 5)%nat) /\
  (forall e p, In p (passes e) ->
      (length (matching e p) < 5)%nat -> emitted e p = []) /\
  (forall (K : SortKind) e p, In p (passes e) ->
      (5 <= length (matching e p))%nat ->
      exists s out, emitted e p = [s] /\ analyze_all e = Ok out /\ In s out) /\
  (forall (K : SortKind) e out, analyze_all e = Ok out ->
      Permutation (flat_map (emitted e) (passes e)) out).
Proof.
  split; [exact get_metrics_none |]. split; [| split].
  - intros e p _ Hlt.
    destruct (emitted_cases e p) as [[_ Hnil] | [Hge _]]; [exact Hnil | lia].
  - intros K e p Hp Hge.
    destruct (emitted_cases e p) as [[Hlt _] | [_ [s Hs]]]; [lia |].
    assert (Hin : In s (collect_signals e)).
    { rewrite collect_signals_passes. apply in_flat_map.
      exists p. split; [exact Hp |]. rewrite Hs. left. reflexivity. }
    exists s, (sort_values (collect_signals e)). split; [exact Hs |]. split.
    + apply analyze_all_nonempty. intros Hnil. rewrite Hnil in Hin. exact Hin.
    + eapply Permutation_in; [apply sort_values_perm | exact Hin].
  - intros K e out Hout.
    apply analyze_all_ok in Hout. destruct Hout as [_ ->].
    rewrite <- collect_signals_passes. apply sort_values_perm.
Qed.

(** ** Null teams *)

Lemma get_metrics_null (d : DataFrame) (mt : string) :
  _get_metrics d mt NaN = None.
Proof.
  apply get_metrics_none. unfold subset_of.
  assert (E : forall f : Observation -> cell,
             filter (fun r => String.eqb (market_type r) mt && cell_eq (f r) NaN) d = []).
  { intros f. induction d as [| r d' IH]; [reflexivity |].
    cbn [filter]. destruct (f r); cbn [cell_eq NaN]; rewrite andb_false_r; exact IH. }
  destruct (String.eqb_spec mt "Total") as [-> | _].
  - rewrite (E side). cbn. lia.
  - rewrite (E team). cbn. lia.
Qed.

Lemma in_singleton {A} (x y : A) : In x [y] -> x = y.
Proof. intros [H | []]. symmetry. exact H. Qed.

(** ** The design's scenarios *)

(** Scenario A of the design: ten Moneyline quotes at -150 give money
    flow 0, score 5, the medium label and "Victorie (ML)". *)
Example scenario_moneyline :
  exists s, @analyze_all stable_kind engine_moneyline = Ok [s] /\
            Market s = "MONEYLINE" /\ Selection s = Some "TeamA" /\
            Score s = 5 /\ Risk s = MEDIUM /\
            Safe_Bet_Line s = "Victorie (ML)" /\
            (money_flow (Metrics s) == 0)%Q.
Proof. eexists. repeat split. Qed.

Lemma get_metrics_money_flow_witness :
  (5 <= length (subset_of df_moneyline "Moneyline" (Some "TeamA")))%nat /\
  exists m,
    _get_metrics df_moneyline "Moneyline" (Some "TeamA") = Some m /\
    current_odds m
      = mean (map decimal_odds
                (skipn (10 - 3) (subset_of df_moneyline "Moneyline" (Some "TeamA")))).
Proof.
  assert (H : (5 <= length (subset_of df_moneyline "Moneyline" (Some "TeamA")))%nat)
    by (vm_compute; lia).
  split; [exact H |].
  destruct (get_metrics_money_flow df_moneyline "Moneyline" (Some "TeamA") H)
    as (_ & _ & _ & m & Hm & _ & Hodds).
  exists m. split; [exact Hm | exact Hodds].
Defined.

Lemma insufficient_samples_omitted_witness :
  emitted engine_moneyline (MoneylineOf (Some "TeamB")) = [] /\
  exists s out,
    emitted engine_moneyline (MoneylineOf (Some "TeamA")) = [s] /\
    @analyze_all stable_kind engine_moneyline = Ok out /\ In s out.
Proof.
  destruct insufficient_samples_omitted as (_ & Hlt & Hge & _).
  split.
  - apply Hlt; [cbn; tauto | vm_compute; lia].
  - apply (Hge stable_kind); [cbn; tauto | vm_compute; lia].
Defined.

Lemma risk_label_tiers_witness :
  _get_risk_label 9 = LOW /\ _get_risk_label 5 = MEDIUM /\
  _get_risk_label 4 = HIGH.
Proof.
  destruct risk_label_tiers as (Hlow & Hmed & Hhigh & _).
  split; [apply Hlow; lia | split; [apply Hmed; lia | apply Hhigh; lia]].
Defined.

(** * Further properties of the code *)

(** ** Match detection, beyond the empty frame *)

(** X1 -- match detection raises exactly on the frame without rows (and
    then it is IndexError); on every other frame it returns a match. *)
Theorem detect_match_info_raises_iff (d : DataFrame) :
  ((exists x, _detect_match_info d = Raise x) <-> d = []) /\
  (forall x, _detect_match_info d = Raise x -> x = IndexError).
Proof.
  destruct d as [| r d'].
  - split; [split; [reflexivity | intros _; exists IndexError; reflexivity] |].
    intros x H. cbv in H. inversion H. reflexivity.
  - assert (Hne : r :: d' <> []) by discriminate.
    destruct (detect_match_info_nonempty (r :: d') Hne) as [t Ht].
    rewrite Ht. split; [split |].
    + intros [x Hx]. discriminate Hx.
    + intros H. discriminate H.
    + intros x Hx. discriminate Hx.
Qed.

Lemma cell_eq_some (c : cell) (s : string) :
  cell_eq c (Some s) = true <-> c = Some s.
Proof.
  destruct c as [x |]; cbn; split; intros H; try discriminate.
  - apply String.eqb_eq in H. subst x. reflexivity.
  - inversion H. apply String.eqb_refl.
Qed.

Lemma first_team_found (d : DataFrame) (s h : string) :
  first_team d s = Ok h ->
  exists before r after,
    d = before ++ r :: after /\
    side r = Some s /\ team r = Some h /\
    forall r', In r' before -> ~ (side r' = Some s /\ team r' <> None).
Proof.
  unfold first_team, index.
  induction d as [| r d' IH]; cbn [filter map dropna nth_error]; [discriminate |].
  destruct (cell_eq (side r) (Some s)) eqn:Eside.
  - cbn [map dropna]. destruct (team r) as [name |] eqn:Eteam.
    + cbn [nth_error]. intros H. inversion H. subst name.
      exists [], r, d'.
      split; [reflexivity |]. split; [apply cell_eq_some; exact Eside |].
      split; [exact Eteam |]. intros r' [].
    + intros H. destruct (IH H) as (before & r0 & after & -> & Hs & Ht & Hfirst).
      exists (r :: before), r0, after.
      split; [reflexivity |]. split; [exact Hs |]. split; [exact Ht |].
      intros r' [<- | Hin]; [| apply Hfirst; exact Hin].
      intros [_ Hnn]. apply Hnn. exact Eteam.
  - intros H. destruct (IH H) as (before & r0 & after & -> & Hs & Ht & Hfirst).
    exists (r :: before), r0, after.
    split; [reflexivity |]. split; [exact Hs |]. split; [exact Ht |].
    intros r' [<- | Hin]; [| apply Hfirst; exact Hin].
    intros [Hside _]. apply cell_eq_some in Hside. congruence.
Qed.

(** X2 -- when a home-labelled and an away-labelled row with a team
    exist, the detected home (away) team is the team of the first row
    labelled home (away) whose team is not null. *)
Theorem detect_match_info_labelled (d : DataFrame) (h a : string) :
  first_team d "home" = Ok h ->
  first_team d "away" = Ok a ->
  _detect_match_info d = Ok (mkTeams (Some h) (Some a)) /\
  (exists before r after,
      d = before ++ r :: after /\ side r = Some "home" /\ team r = Some h /\
      forall r', In r' before -> ~ (side r' = Some "home" /\ team r' <> None)) /\
  (exists before r after,
      d = before ++ r :: after /\ side r = Some "away" /\ team r = Some a /\
      forall r', In r' before -> ~ (side r' = Some "away" /\ team r' <> None)).
Proof.
  intros Hh Ha. split; [| split].
  - unfold _detect_match_info. rewrite Hh, Ha. reflexivity.
  - apply first_team_found. exact Hh.
  - apply first_team_found. exact Ha.
Qed.

Lemma unique_second_differs (l : list cell) (c c' : cell) (rest : list cell) :
  unique l = c :: c' :: rest -> cell_same c c' = false.
Proof.
  destruct l as [| x l']; cbn [unique]; [discriminate |].
  intros H. inversion H as [[Hx Hf]]. subst x.
  assert (Hin : In c' (filter (fun d => negb (cell_same c d)) (unique l')))
    by (rewrite Hf; left; reflexivity).
  apply filter_In in Hin. destruct Hin as [_ Hneg].
  apply negb_true_iff in Hneg. exact Hneg.
Qed.

(** X3 -- in the fallback the home team is the first team value of the
    frame; with two or more distinct values the away team is the second
    and differs from the home team, with exactly one it is "Unknown". *)
Theorem detect_match_info_fallback_teams (d : DataFrame) (t : Teams) :
  (first_team d "home" = Raise IndexError \/ first_team d "away" = Raise IndexError) ->
  _detect_match_info d = Ok t ->
  (exists r d', d = r :: d' /\ home t = team r) /\
  ((2 <= length (unique (map team d)))%nat ->
     nth_error (unique (map team d)) 1 = Some (away t) /\
     cell_same (home t) (away t) = false) /\
  (length (unique (map team d)) = 1%nat -> away t = Some "Unknown").
Proof.
  intros Hfail Ht.
  destruct (detect_match_info_fallback d t Hfail Ht) as [Hhome Haway].
  split; [| split].
  - destruct d as [| r d']; [cbn in Hhome; discriminate |].
    exists r, d'. split; [reflexivity |]. cbn in Hhome. inversion Hhome. reflexivity.
  - intros Hlen.
    destruct (unique (map team d)) as [| c [| c' rest]] eqn:E; cbn in Hlen; try lia.
    cbn in Hhome, Haway. inversion Hhome as [Hc].
    split; [cbn; rewrite Haway; reflexivity |].
    rewrite Haway, <- Hc. eapply unique_second_differs. exact E.
  - intros Hlen.
    destruct (unique (map team d)) as [| c [| c' rest]] eqn:E; cbn in Hlen; try lia.
    exact Haway.
Qed.

Lemma detect_match_info_fallback_teams_witness :
  exists t,
    _detect_match_info
      [obs 1 "Spread" (Some "h") (Some "Magic") (-110) 3;
       obs 2 "Total" (Some "over") NaN (-110) 210;
       obs 3 "Spread" (Some "a") (Some "Clippers") (-110) (-3)] = Ok t /\
    home t = Some "Magic" /\ away t = NaN.
Proof.
  eexists. split; [reflexivity |].
  set (d := [obs 1 "Spread" (Some "h") (Some "Magic") (-110) 3;
             obs 2 "Total" (Some "over") NaN (-110) 210;
             obs 3 "Spread" (Some "a") (Some "Clippers") (-110) (-3)]).
  destruct (detect_match_info_fallback_teams d (mkTeams (Some "Magic") NaN))
    as [_ [Hsecond _]]; [left; reflexivity | reflexivity |].
  destruct Hsecond as [Hnth _]; [vm_compute; lia |].
  split; [reflexivity |]. vm_compute in Hnth. inversion Hnth. reflexivity.
Defined.

Lemma detect_match_info_labelled_witness :
  _detect_match_info df_ties = Ok (mkTeams (Some "Clippers") (Some "Magic")).
Proof.
  apply (detect_match_info_labelled df_ties "Clippers" "Magic"); reflexivity.
Defined.

(** ** The score without its clamp *)

(** X4 -- the final clamp never changes a score: for every market type
    the score is 5 plus the two adjustments and lies in 2..10, so the
    value 1 is never produced. *)
Theorem calculate_score_unclamped (mt : string) (m : Metric) (selection : cell) :
  _calculate_score mt m selection
    = 5 + flow_adjustment m + market_adjustment mt m selection /\
  2 <= _calculate_score mt m selection <= 10.
Proof.
  rewrite calculate_score_clamped.
  unfold clamp, flow_adjustment, market_adjustment.
  destruct (Qltb (5 # 10) (money_flow m));
    destruct (Qltb (money_flow m) (- (5 # 10)));
    destruct (String.eqb mt "Spread");
    destruct (String.eqb mt "Total");
    destruct (String.eqb mt "Moneyline");
    destruct (Qltb (close_line m) (open_line m));
    destruct (Qltb (open_line m) (close_line m));
    destruct (Qltb 0 (money_flow m));
    destruct (Qltb (15 # 10) (money_flow m));
    destruct (cell_eq selection (Some "over"));
    destruct (cell_eq selection (Some "under"));
    cbn; lia.
Qed.

Lemma Qltb_trans_true (a b x : Q) :
  (a <= b)%Q -> Qltb b x = true -> Qltb a x = true.
Proof.
  intros Hab H. apply Qltb_lt in H. apply Qltb_lt.
  eapply Qle_lt_trans; eassumption.
Qed.

Lemma Qltb_exclusive (a b x : Q) :
  (a <= b)%Q -> Qltb x a = true -> Qltb b x = false.
Proof.
  intros Hab H. apply Qltb_lt in H. apply Qltb_ge.
  apply Qlt_le_weak. eapply Qlt_le_trans; eassumption.
Qed.

(** X5 -- the scores each market can take: Spread 2, 4, 5, 6, 7 or 9;
    Total 3, 5, 7, 8 or 10; Moneyline 3, 5, 7 or 10 (its +3 needs a money
    flow above 1.5, which always earns the +2 as well). *)
Theorem calculate_score_values (m : Metric) (selection : cell) :
  In (_calculate_score "Spread" m selection) [2; 4; 5; 6; 7; 9] /\
  In (_calculate_score "Total" m selection) [3; 5; 7; 8; 10] /\
  In (_calculate_score "Moneyline" m selection) [3; 5; 7; 10].
Proof.
  unfold _calculate_score.
  cbn [String.eqb Ascii.eqb Bool.eqb].
  destruct (Qltb (5 # 10) (money_flow m)) eqn:Ehigh.
  - assert (Hpos : Qltb 0 (money_flow m) = true).
    { apply (Qltb_trans_true 0 (5 # 10)); [discriminate | exact Ehigh]. }
    rewrite Hpos.
    destruct (Qltb (close_line m) (open_line m));
      destruct (Qltb (open_line m) (close_line m));
      destruct (Qltb (15 # 10) (money_flow m));
      destruct (cell_eq selection (Some "over"));
      destruct (cell_eq selection (Some "under"));
      cbn; tauto.
  - assert (Hml : Qltb (15 # 10) (money_flow m) = false).
    { apply Qltb_ge. apply Qltb_ge in Ehigh.
      eapply Qle_trans; [exact Ehigh | discriminate]. }
    rewrite Hml.
    destruct (Qltb (money_flow m) (- (5 # 10))) eqn:Elow.
    + assert (Hneg : Qltb 0 (money_flow m) = false).
      { apply (Qltb_exclusive (- (5 # 10)) 0); [discriminate | exact Elow]. }
      rewrite Hneg, !andb_false_r.
      destruct (Qltb (close_line m) (open_line m)); cbn; tauto.
    + destruct (Qltb (close_line m) (open_line m));
        destruct (Qltb (open_line m) (close_line m));
        destruct (Qltb 0 (money_flow m));
        destruct (cell_eq selection (Some "over"));
        destruct (cell_eq selection (Some "under"));
        cbn; tauto.
Qed.

(** ** What analyze_all returns *)

Lemma emitted_inv (e : AnalyticsEngine) (p : pass) (s : Signal) :
  In s (emitted e p) ->
  exists m,
    _get_metrics (df e) (fst (pair_of p)) (snd (pair_of p)) = Some m /\
    Metrics s = m /\
    Score s = _calculate_score (fst (pair_of p)) m (snd (pair_of p)) /\
    Risk s = _get_risk_label (Score s).
Proof.
  destruct p as [t | sd | t]; cbn [emitted pair_of fst snd];
    unfold spread_step, total_step, moneyline_step;
    match goal with
    | |- context [_get_metrics ?d ?mt ?sel] =>
        destruct (_get_metrics d mt sel) as [m |]; [| intros []]
    end;
    intros Hs; apply in_singleton in Hs; subst s; exists m;
    repeat split; reflexivity.
Qed.

(** X6 -- the call ends in one of two ways: it returns exactly when some
    examined pair has at least 5 matching rows, and the only exception
    it raises is KeyError('Score'). *)
Theorem analyze_all_returns_iff (K : SortKind) (e : AnalyticsEngine) :
  ((exists out, analyze_all e = Ok out) <->
   (exists p, In p (passes e) /\ (5 <= length (matching e p))%nat)) /\
  (forall x, analyze_all e = Raise x -> x = KeyError "Score").
Proof.
  split; [split |].
  - intros [out Hout]. apply analyze_all_ok in Hout. destruct Hout as [Hne _].
    destruct (collect_signals e) as [| s l] eqn:E; [congruence |].
    assert (Hin : In s (flat_map (emitted e) (passes e))).
    { rewrite <- collect_signals_passes, E. left. reflexivity. }
    apply in_flat_map in Hin. destruct Hin as (p & Hp & Hs).
    exists p. split; [exact Hp |].
    destruct (emitted_cases e p) as [[_ Hnil] | [Hge _]]; [| exact Hge].
    rewrite Hnil in Hs. destruct Hs.
  - intros (p & Hp & Hge).
    exists (sort_values (collect_signals e)). apply analyze_all_nonempty.
    intros Hnil. destruct (collect_signals_nil e) as [Hfwd _].
    specialize (Hfwd Hnil p Hp). lia.
  - unfold analyze_all. destruct (collect_signals e); intros x H; inversion H.
    reflexivity.
Qed.

Lemma flat_map_emitted_length (e : AnalyticsEngine) (ps : list pass) :
  length (flat_map (emitted e) ps)
  = length (filter (fun p => (5 <=? length (matching e p))%nat) ps).
Proof.
  induction ps as [| p ps' IH]; [reflexivity |].
  cbn [flat_map filter]. rewrite length_app, IH.
  destruct (emitted_cases e p) as [[Hlt ->] | [Hge [s ->]]].
  - destruct (Nat.leb_spec 5 (length (matching e p))); [lia | reflexivity].
  - destruct (Nat.leb_spec 5 (length (matching e p))); [reflexivity | lia].
Qed.

(** X7 -- the returned list holds one signal per examined pair with at
    least 5 matching rows: between 1 and 6 signals. *)
Theorem analyze_all_length (K : SortKind) (e : AnalyticsEngine) (out : list Signal) :
  analyze_all e = Ok out ->
  length out
    = length (filter (fun p => (5 <=? length (matching e p))%nat) (passes e)) /\
  (1 <= length out <= 6)%nat.
Proof.
  intros Hout. apply analyze_all_ok in Hout. destruct Hout as [Hne ->].
  rewrite <- (Permutation_length (sort_values_perm (collect_signals e))).
  split.
  - rewrite collect_signals_passes. apply flat_map_emitted_length.
  - split.
    + destruct (collect_signals e); [congruence | cbn; lia].
    + rewrite collect_signals_passes, flat_map_emitted_length.
      etransitivity; [apply filter_length_le | cbn; lia].
Qed.

Lemma analyze_all_length_witness :
  exists out, @analyze_all stable_kind engine_ties = Ok out /\ length out = 2%nat.
Proof.
  eexists. split; [reflexivity |].
  destruct (analyze_all_length stable_kind engine_ties _ eq_refl) as [Hlen _].
  exact Hlen.
Defined.

(** X8 -- every returned signal is consistent: its score is the score of
    its own metrics for the pair it came from, lies in 2..10, and its
    risk is the label of that score. *)
Theorem analyze_all_signals_consistent (K : SortKind) (e : AnalyticsEngine)
    (out : list Signal) (s : Signal) :
  analyze_all e = Ok out -> In s out ->
  Risk s = _get_risk_label (Score s) /\
  2 <= Score s <= 10 /\
  exists p,
    In p (passes e) /\
    _get_metrics (df e) (fst (pair_of p)) (snd (pair_of p)) = Some (Metrics s) /\
    Score s = _calculate_score (fst (pair_of p)) (Metrics s) (snd (pair_of p)).
Proof.
  intros Hout Hs. apply analyze_all_ok in Hout. destruct Hout as [_ ->].
  apply (Permutation_in _ (Permutation_sym (sort_values_perm _))) in Hs.
  rewrite collect_signals_passes in Hs. apply in_flat_map in Hs.
  destruct Hs as (p & Hp & Hs).
  destruct (emitted_inv e p s Hs) as (m & Hm & HM & Hscore & Hrisk).
  subst m. split; [exact Hrisk |]. split.
  - rewrite Hscore, calculate_score_clamped.
    unfold clamp, flow_adjustment, market_adjustment.
    destruct (Qltb (5 # 10) (money_flow (Metrics s)));
      destruct (Qltb (money_flow (Metrics s)) (- (5 # 10)));
      destruct (String.eqb (fst (pair_of p)) "Spread");
      destruct (String.eqb (fst (pair_of p)) "Total");
      destruct (String.eqb (fst (pair_of p)) "Moneyline");
      destruct (Qltb (close_line (Metrics s)) (open_line (Metrics s)));
      destruct (Qltb (open_line (Metrics s)) (close_line (Metrics s)));
      destruct (Qltb 0 (money_flow (Metrics s)));
      destruct (Qltb (15 # 10) (money_flow (Metrics s)));
      destruct (cell_eq (snd (pair_of p)) (Some "over"));
      destruct (cell_eq (snd (pair_of p)) (Some "under"));
      cbn; lia.
  - exists p. auto.
Qed.

Lemma analyze_all_signals_consistent_witness :
  exists out s,
    @analyze_all stable_kind engine_moneyline = Ok out /\ In s out /\
    Risk s = _get_risk_label (Score s) /\ 2 <= Score s <= 10.
Proof.
  eexists. eexists. split; [reflexivity |]. split; [left; reflexivity |].
  destruct (analyze_all_signals_consistent stable_kind engine_moneyline _ _
              eq_refl (or_introl eq_refl)) as (Hrisk & Hrange & _).
  split; [exact Hrisk | exact Hrange].
Defined.

(** ** The two windows *)

Lemma get_metrics_some_inv (d : DataFrame) (mt : string) (selection : cell)
    (m : Metric) :
  _get_metrics d mt selection = Some m ->
  (5 <= length (subset_of d mt selection))%nat /\
  money_flow m
    = ((implied_prob (mean (map decimal_odds (close_slice_of d mt selection)))
        - implied_prob (mean (map decimal_odds (open_slice_of d mt selection))))
       * 100)%Q /\
  current_odds m = mean (map decimal_odds (close_slice_of d mt selection)).
Proof.
  unfold _get_metrics, open_slice_of, close_slice_of.
  destruct (Nat.ltb_spec (length (subset_of d mt selection)) 5) as [Hlt | Hge];
    [discriminate |].
  destruct (String.eqb mt "Moneyline"); intros H; inversion H; cbn; auto.
Qed.

Lemma slices_length (d : DataFrame) (mt : string) (selection : cell) :
  (5 <= length (subset_of d mt selection))%nat ->
  length (open_slice_of d mt selection) = window (length (subset_of d mt selection)) /\
  length (close_slice_of d mt selection) = window (length (subset_of d mt selection)).
Proof.
  intros H. pose proof (window_bounds _ H) as Hw.
  unfold open_slice_of, close_slice_of, iloc_head.
  rewrite iloc_tail_skipn by lia.
  rewrite length_firstn, length_skipn. lia.
Qed.

(** X9 -- with 6 or more matching rows the open and the close window do
    not overlap: the subset is the open window, some rows in between and
    the close window; with exactly 5 rows both windows hold 3 rows and
    share the middle one. *)
Theorem windows_overlap_only_at_five (d : DataFrame) (mt : string)
    (selection : cell) :
  ((6 <= length (subset_of d mt selection))%nat ->
   exists middle,
     subset_of d mt selection
     = open_slice_of d mt selection ++ middle ++ close_slice_of d mt selection) /\
  (length (subset_of d mt selection) = 5%nat ->
   exists a b c x y,
     subset_of d mt selection = [a; b; c; x; y] /\
     open_slice_of d mt selection = [a; b; c] /\
     close_slice_of d mt selection = [c; x; y]).
Proof.
  unfold open_slice_of, close_slice_of.
  set (subset := subset_of d mt selection). split.
  - intros H.
    assert (Hn : (3 <= window (length subset))%nat /\
                 (2 * window (length subset) <= length subset)%nat).
    { rewrite window_floor.
      assert (length subset * 15 / 100 * 2 <= length subset)%nat.
      { assert (length subset * 15 / 100 <= length subset * 15 / 30)%nat
          by (apply Nat.div_le_compat_l; lia).
        assert (length subset * 15 / 30 * 2 <= length subset)%nat.
        { pose proof (Nat.Div0.mul_div_le (length subset * 15) 30). lia. }
        lia. }
      lia. }
    destruct Hn as [Hn3 Hn2]. set (n := window (length subset)) in *.
    unfold iloc_head. rewrite iloc_tail_skipn by lia. fold n.
    exists (firstn (length subset - 2 * n) (skipn n subset)).
    rewrite <- (firstn_skipn n subset) at 1. f_equal.
    rewrite <- (firstn_skipn (length subset - 2 * n) (skipn n subset)) at 1.
    f_equal. rewrite skipn_skipn. f_equal. lia.
  - intros H.
    destruct subset as [| a [| b [| c [| x [| y [| z rest]]]]]]; cbn in H; try lia.
    exists a, b, c, x, y. repeat split.
Qed.

Lemma windows_overlap_only_at_five_witness :
  exists middle,
    subset_of df_moneyline "Moneyline" (Some "TeamA")
    = open_slice_of df_moneyline "Moneyline" (Some "TeamA") ++ middle
      ++ close_slice_of df_moneyline "Moneyline" (Some "TeamA").
Proof.
  destruct (windows_overlap_only_at_five df_moneyline "Moneyline" (Some "TeamA"))
    as [Hsix _].
  apply Hsix. vm_compute. lia.
Defined.

(** ** Money flow *)

Lemma Forall_firstn {A} (P : A -> Prop) (n : nat) (l : list A) :
  Forall P l -> Forall P (firstn n l).
Proof.
  intros H. revert n. induction H as [| x l Hx Hl IH]; intros [| n]; cbn;
    constructor; auto.
Qed.

Lemma Forall_skipn {A} (P : A -> Prop) (n : nat) (l : list A) :
  Forall P l -> Forall P (skipn n l).
Proof.
  intros H. revert n. induction H as [| x l Hx Hl IH]; intros [| n]; cbn;
    auto.
Qed.

Lemma Forall_slices (P : Observation -> Prop) (d : DataFrame) (mt : string)
    (selection : cell) :
  Forall P (subset_of d mt selection) ->
  Forall P (open_slice_of d mt selection) /\
  Forall P (close_slice_of d mt selection).
Proof.
  intros H. unfold open_slice_of, close_slice_of, iloc_head, iloc_tail. split.
  - apply Forall_firstn. exact H.
  - destruct (window _); [exact H | apply Forall_skipn; exact H].
Qed.

Lemma inject_Z_succ (n : nat) :
  (inject_Z (Z.of_nat (S n)) == inject_Z (Z.of_nat n) + 1)%Q.
Proof. rewrite Nat2Z.inj_succ. unfold Z.succ. rewrite inject_Z_plus. reflexivity. Qed.

Lemma inject_Z_length_pos {A} (l : list A) :
  l <> [] -> (0 < inject_Z (Z.of_nat (length l)))%Q.
Proof.
  intros H. destruct l; [congruence |].
  change 0%Q with (inject_Z 0). rewrite <- Zlt_Qlt. cbn [length]. lia.
Qed.


Lemma Qsum_lower (lo : Q) (l : list Q) :
  Forall (fun x => (lo < x)%Q) l ->
  (inject_Z (Z.of_nat (length l)) * lo <= Qsum l)%Q /\
  (l <> [] -> (inject_Z (Z.of_nat (length l)) * lo < Qsum l)%Q).
Proof.
  induction 1 as [| x l Hx Hl [IHle _]]; cbn [Qsum fold_right length].
  - split; [change (0 * lo <= 0)%Q; lra | congruence].
  - fold (Qsum l). rewrite inject_Z_succ.
    assert (Hlt : ((inject_Z (Z.of_nat (length l)) + 1) * lo < x + Qsum l)%Q) by lra.
    split; [apply Qlt_le_weak; exact Hlt | intros _; exact Hlt].
Qed.


Lemma mean_lower (lo : Q) (l : list Q) :
  l <> [] -> Forall (fun x => (lo < x)%Q) l -> (lo < mean l)%Q.
Proof.
  intros Hne Hall. unfold mean.
  apply Qlt_shift_div_l; [apply inject_Z_length_pos; exact Hne |].
  rewrite Qmult_comm. apply (Qsum_lower lo l Hall). exact Hne.
Qed.


Lemma map_slice_nonempty (d : DataFrame) (mt : string) (selection : cell)
    (f : Observation -> Q) :
  (5 <= length (subset_of d mt selection))%nat ->
  map f (open_slice_of d mt selection) <> [] /\
  map f (close_slice_of d mt selection) <> [].
Proof.
  intros H. destruct (slices_length d mt selection H) as [Ho Hc].
  pose proof (window_bounds _ H) as Hw.
  split; intros E; apply (f_equal (@length Q)) in E;
    rewrite length_map in E; cbn in E; lia.
Qed.

Lemma Forall_map_iff {A B} (f : A -> B) (P : B -> Prop) (l : list A) :
  Forall (fun x => P (f x)) l -> Forall P (map f l).
Proof. induction 1; cbn; constructor; auto. Qed.





Lemma window_probs_bounded (d : DataFrame) (mt : string) (selection : cell) :
  (5 <= length (subset_of d mt selection))%nat ->
  Forall (fun r => (1 < decimal_odds r)%Q) (subset_of d mt selection) ->
  let avg_open := mean (map decimal_odds (open_slice_of d mt selection)) in
  let avg_close := mean (map decimal_odds (close_slice_of d mt selection)) in
  (0 < implied_prob avg_open < 1)%Q /\ (0 < implied_prob avg_close < 1)%Q /\
  (1 < avg_close)%Q.
Proof.
  intros Hge Hall avg_open avg_close.
  destruct (Forall_slices _ d mt selection Hall) as [Hopen Hclose].
  destruct (map_slice_nonempty d mt selection decimal_odds Hge) as [Hno Hnc].
  pose proof (mean_lower 1 _ Hno (Forall_map_iff decimal_odds (fun x => (1 < x)%Q) _ Hopen))
    as Hmo.
  pose proof (mean_lower 1 _ Hnc (Forall_map_iff decimal_odds (fun x => (1 < x)%Q) _ Hclose))
    as Hmc.
  fold avg_open in Hmo. fold avg_close in Hmc.
  assert (Hprob : forall a, (1 < a)%Q -> (0 < implied_prob a < 1)%Q).
  { intros a Ha. assert (Hpos : (0 < a)%Q) by lra.
    destruct (implied_prob_spec a) as [Hp _]. rewrite (Hp Hpos).
    unfold Qdiv. rewrite Qmult_1_l. split.
    - apply Qinv_lt_0_compat. exact Hpos.
    - apply (Qinv_lt_contravar 1 a) in Ha; [| reflexivity | exact Hpos].
      exact Ha. }
  split; [apply Hprob; exact Hmo |]. split; [apply Hprob; exact Hmc | exact Hmc].
Qed.

(** X12 -- when every matching row has decimal odds above 1, both window
    probabilities lie strictly between 0 and 1, so the money flow lies
    strictly between -100 and 100 and the current odds are above 1. *)
Theorem money_flow_bounded (d : DataFrame) (mt : string) (selection : cell)
    (m : Metric) :
  _get_metrics d mt selection = Some m ->
  Forall (fun r => (1 < decimal_odds r)%Q) (subset_of d mt selection) ->
  (- (100) < money_flow m < 100)%Q /\ (1 < current_odds m)%Q.
Proof.
  intros Hm Hall.
  destruct (get_metrics_some_inv d mt selection m Hm) as (Hge & Hflow & Hodds).
  destruct (window_probs_bounded d mt selection Hge Hall) as (Hpo & Hpc & Hmc).
  split; [| rewrite Hodds; exact Hmc].
  rewrite Hflow. lra.
Qed.

Lemma money_flow_bounded_witness :
  exists m,
    _get_metrics df_ties "Spread" (Some "Magic") = Some m /\
    (- (100) < money_flow m < 100)%Q.
Proof.
  eexists. split; [reflexivity |].
  apply (money_flow_bounded df_ties "Spread" (Some "Magic") _ eq_refl).
  vm_compute. repeat constructor.
Defined.

(** ** Odds as probabilities *)





(** ** The chart frame *)

Lemma subset_of_team_market (d : DataFrame) (mt : string) (tm : cell) :
  is_chart_market mt = true ->
  subset_of d mt tm
  = filter (fun r => String.eqb (market_type r) mt && cell_eq (team r) tm) d.
Proof.
  unfold is_chart_market, subset_of. intros H.
  destruct (String.eqb_spec mt "Total") as [-> | _]; [discriminate H | reflexivity].
Qed.

Lemma source_row_add_columns (op : Q) (value : Observation -> Q)
    (label : Observation -> cell) (l : DataFrame) :
  map source_row (map (add_chart_columns op value label) l) = l.
Proof. rewrite map_map. apply map_id. Qed.

(** X14 -- how the chart call ends: for Spread and Moneyline it returns
    None exactly when no row matches the market and team, for Total
    exactly when the frame has no Total row, and for any other market
    type it stops on the unassigned [filtered_df]. *)
Theorem create_analysis_chart_outcome (d : DataFrame) (mt : string) (tm : cell) :
  (is_chart_market mt = true ->
     (create_analysis_chart d mt tm = NoChart <-> subset_of d mt tm = [])) /\
  (mt = "Total" ->
     (create_analysis_chart d mt tm = NoChart <->
      forall r, In r d -> market_type r <> "Total")) /\
  (is_chart_market mt = false -> mt <> "Total" ->
     create_analysis_chart d mt tm = UnboundLocalError "filtered_df").
Proof.
  split; [| split].
  - intros H. rewrite (subset_of_team_market d mt tm H).
    unfold create_analysis_chart. unfold is_chart_market in H. rewrite H.
    destruct (filter _ d); split; intros E; try reflexivity; discriminate E.
  - intros ->. unfold create_analysis_chart.
    cbn [String.eqb Ascii.eqb Bool.eqb orb].
    destruct (filter (fun r => String.eqb (market_type r) "Total") d) as [| r0 l] eqn:E.
    + split; [| reflexivity]. intros _ r Hr Hmt.
      assert (Hin : In r (filter (fun r => String.eqb (market_type r) "Total") d)).
      { apply filter_In. split; [exact Hr | apply String.eqb_eq; exact Hmt]. }
      rewrite E in Hin. exact Hin.
    + split; [discriminate |]. intros Hall. exfalso.
      assert (Hin : In r0 (filter (fun r => String.eqb (market_type r) "Total") d))
        by (rewrite E; left; reflexivity).
      apply filter_In in Hin. destruct Hin as [Hr Hmt].
      apply String.eqb_eq in Hmt. exact (Hall r0 Hr Hmt).
  - intros H Hne. unfold create_analysis_chart. unfold is_chart_market in H.
    rewrite H. apply String.eqb_neq in Hne. rewrite Hne. reflexivity.
Qed.

Lemma create_analysis_chart_outcome_witness :
  create_analysis_chart df_thin "Moneyline" (Some "Magic") = NoChart /\
  create_analysis_chart df_thin "Over" NaN = UnboundLocalError "filtered_df".
Proof.
  destruct (create_analysis_chart_outcome df_thin "Moneyline" (Some "Magic"))
    as [Hnone _].
  destruct (create_analysis_chart_outcome df_thin "Over" NaN) as (_ & _ & Hother).
  split.
  - apply Hnone; reflexivity.
  - apply Hother; [reflexivity | discriminate].
Defined.

(** X15 -- a Spread or Moneyline chart is drawn from exactly the rows
    the metrics of that pair are computed from, in the same order; so
    whenever the pair has metrics the chart exists and has at least 5
    points.  It plots the decimal odds for Moneyline and the line for
    Spread. *)
Theorem chart_rows_are_metric_rows (d : DataFrame) (mt : string) (tm : cell)
    (m : Metric) :
  is_chart_market mt = true ->
  _get_metrics d mt tm = Some m ->
  exists fig,
    create_analysis_chart d mt tm = Chart fig /\
    map source_row (points fig) = subset_of d mt tm /\
    (5 <= length (points fig))%nat /\
    Forall (fun p => plot_value p
                     = if String.eqb mt "Moneyline"
                       then decimal_odds (source_row p)
                       else line (source_row p))
           (points fig).
Proof.
  intros Hmt Hm.
  assert (Hge : (5 <= length (subset_of d mt tm))%nat).
  { destruct (Nat.le_gt_cases 5 (length (subset_of d mt tm))) as [H | H]; [exact H |].
    apply get_metrics_none in H. congruence. }
  rewrite (subset_of_team_market d mt tm Hmt) in *.
  unfold create_analysis_chart. unfold is_chart_market in Hmt. rewrite Hmt.
  destruct (filter _ d) as [| first rest] eqn:E; [cbn in Hge; lia |].
  eexists. split; [reflexivity |]. cbn [points].
  split; [| split].
  - apply source_row_add_columns.
  - rewrite length_map. exact Hge.
  - apply Forall_forall. intros p Hp. apply in_map_iff in Hp.
    destruct Hp as (r & <- & _). cbn [add_chart_columns plot_value source_row].
    destruct (String.eqb mt "Moneyline"); reflexivity.
Qed.

Lemma chart_rows_are_metric_rows_witness :
  exists fig,
    create_analysis_chart df_moneyline "Moneyline" (Some "TeamA") = Chart fig /\
    length (points fig) = 10%nat.
Proof.
  destruct (chart_rows_are_metric_rows df_moneyline "Moneyline" (Some "TeamA")
              _ eq_refl eq_refl) as (fig & Hfig & Hrows & _).
  exists fig. split; [exact Hfig |].
  rewrite <- (length_map source_row), Hrows. reflexivity.
Defined.

(** X16 -- the Total chart ignores the team argument and holds every
    Total row of the frame, both sides together, each labelled by its
    side and plotted at its line. *)
Theorem total_chart_rows (d : DataFrame) (tm tm' : cell) (fig : Figure) :
  create_analysis_chart d "Total" tm = Chart fig ->
  create_analysis_chart d "Total" tm' = Chart fig /\
  map source_row (points fig)
    = filter (fun r => String.eqb (market_type r) "Total") d /\
  (forall selection r, In r (subset_of d "Total" selection) ->
                       In r (map source_row (points fig))) /\
  Forall (fun p => side_label p = side (source_row p) /\
                   plot_value p = line (source_row p))
         (points fig).
Proof.
  unfold create_analysis_chart. cbn [String.eqb Ascii.eqb Bool.eqb orb].
  destruct (filter (fun r => String.eqb (market_type r) "Total") d)
    as [| r0 rest] eqn:E; [discriminate |].
  intros [= <-]. cbn [points].
  change (add_chart_columns (opener_prob_of r0) line side r0
          :: map (add_chart_columns (opener_prob_of r0) line side) rest)
    with (map (add_chart_columns (opener_prob_of r0) line side) (r0 :: rest)).
  split; [reflexivity |]. split; [apply source_row_add_columns |]. split.
  - intros selection r Hr. rewrite source_row_add_columns, <- E.
    unfold subset_of in Hr. cbn [String.eqb Ascii.eqb Bool.eqb] in Hr.
    apply filter_In in Hr. destruct Hr as [Hin Hc].
    apply andb_true_iff in Hc. destruct Hc as [Hc _].
    apply filter_In. split; assumption.
  - apply Forall_forall. intros p Hp. apply in_map_iff in Hp.
    destruct Hp as (r & <- & _). split; reflexivity.
Qed.

Lemma total_chart_rows_witness :
  exists fig,
    create_analysis_chart df_totals "Total" (Some "Magic") = Chart fig /\
    map source_row (points fig) = df_totals.
Proof.
  eexists. split; [reflexivity |].
  apply (total_chart_rows df_totals NaN (Some "Magic") _ eq_refl).
Defined.

(** X17 -- the flow columns of a chart: the marker size of every point
    is the absolute value of its flow and never negative; the flow is
    measured against the first point, which (for nonzero opening odds)
    has flow and size 0; the dotted line stands at the first point's
    plotted value. *)
Theorem chart_flow_columns (d : DataFrame) (mt : string) (tm : cell)
    (fig : Figure) :
  create_analysis_chart d mt tm = Chart fig ->
  exists first rest,
    points fig = first :: rest /\
    hline fig = plot_value first /\
    Forall (fun p => flow_magnitude p = Qabs (flow_delta p) /\
                     (0 <= flow_magnitude p)%Q /\
                     probability p = (1 / decimal_odds (source_row p))%Q)
           (points fig) /\
    (~ (decimal_odds (source_row first) == 0)%Q ->
       (flow_delta first == 0)%Q /\ (flow_magnitude first == 0)%Q /\
       Forall (fun p => (flow_delta p
                         == (probability p - probability first) * 100)%Q)
              (points fig)).
Proof.
  unfold create_analysis_chart.
  destruct (if String.eqb mt "Spread" || String.eqb mt "Moneyline" then _ else _)
    as [[[[filtered value] label] y] |]; [| discriminate].
  destruct filtered as [| r0 rest]; [discriminate |].
  intros [= <-]. cbn [points hline map].
  eexists. eexists. split; [reflexivity |].
  split; [reflexivity |]. split.
  - apply Forall_forall. intros p Hp.
    change (In p (map (add_chart_columns (opener_prob_of r0) value label) (r0 :: rest)))
      in Hp.
    apply in_map_iff in Hp. destruct Hp as (r & <- & _).
    cbn [add_chart_columns flow_magnitude flow_delta probability source_row].
    split; [reflexivity |]. split; [apply Qabs_nonneg | reflexivity].
  - cbn [add_chart_columns flow_delta flow_magnitude source_row probability].
    intros Hnz.
    assert (E : opener_prob_of r0 = (1 / decimal_odds r0)%Q).
    { unfold opener_prob_of.
      destruct (Qeq_bool (decimal_odds r0) 0) eqn:E; [| reflexivity].
      apply Qeq_bool_iff in E. contradiction. }
    rewrite E.
    assert (Hz : ((1 / decimal_odds r0 - 1 / decimal_odds r0) * 100 == 0)%Q) by ring.
    split; [exact Hz |]. split; [rewrite Hz; reflexivity |].
    constructor; [reflexivity |].
    apply Forall_forall. intros p Hp. apply in_map_iff in Hp.
    destruct Hp as (r & <- & _). reflexivity.
Qed.

Lemma chart_flow_columns_witness :
  exists fig first rest,
    create_analysis_chart df_totals "Total" NaN = Chart fig /\
    points fig = first :: rest /\
    (flow_delta first == 0)%Q /\ hline fig = 210%Q.
Proof.
  destruct (chart_flow_columns df_totals "Total" NaN _ eq_refl)
    as (first & rest & Hpts & Hline & _ & Hfirst).
  eexists. exists first, rest. split; [reflexivity |]. split; [exact Hpts |].
  cbn in Hpts. inversion Hpts as [[Hf Hr]].
  split.
  - rewrite Hf. apply Hfirst. rewrite <- Hf. cbn. discriminate.
  - reflexivity.
Defined.

(** ** Risk colours *)

(** X18 -- the style of a risk cell, for every score: green text from 7
    up, a yellow background for 5 and 6, a red background below 5.  The
    low-risk label is not a key of [COLOR_MAP] (the key is written
    without the breve), yet its style is found through the literal key
    and the call does not raise. *)
Theorem color_risk_of_score (score : Z) :
  color_risk (_get_risk_label score)
  = Ok (if 7 <=? score then "color: #00ff41; font-weight: bold"
        else if 5 <=? score
             then "background-color: #ffff00; color: black; font-weight: bold"
             else "background-color: #ff0000; color: black; font-weight: bold") /\
  dict_lookup COLOR_MAP (_get_risk_label 7) = None.
Proof.
  unfold _get_risk_label.
  destruct (7 <=? score); [| destruct (5 <=? score)]; split; reflexivity.
Qed.

(** X19 -- the styler never raises; a cell text that is none of the
    three keys of [COLOR_MAP] nor the low-risk label gets a black
    background. *)
Theorem color_risk_default (val : string) :
  (exists style, color_risk val = Ok style) /\
  (val <> "SCAZUT" -> val <> "MEDIU" -> val <> "RIDICAT" -> val <> "SCĂZUT" ->
   color_risk val
   = Ok "background-color: black; color: black; font-weight: bold").
Proof.
  unfold color_risk. split.
  - destruct (negb (String.eqb val "SCĂZUT")); eexists; reflexivity.
  - intros H1 H2 H3 H4.
    apply String.eqb_neq in H4. rewrite H4. cbn [negb].
    unfold dict_get, COLOR_MAP. cbn [dict_lookup].
    assert (E1 : String.eqb "SCAZUT" val = false)
      by (apply String.eqb_neq; congruence).
    assert (E2 : String.eqb "MEDIU" val = false)
      by (apply String.eqb_neq; congruence).
    assert (E3 : String.eqb "RIDICAT" val = false)
      by (apply String.eqb_neq; congruence).
    rewrite ?E1, ?E2, ?E3. reflexivity.
Qed.

Lemma color_risk_default_witness :
  color_risk "n/a" = Ok "background-color: black; color: black; font-weight: bold".
Proof.
  destruct (color_risk_default "n/a") as [_ H].
  apply H; discriminate.
Defined.

(** X21 -- a null team matches no row: it has no metrics in any market,
    appends no Spread or Moneyline signal and has no chart. *)
Theorem null_team_is_skipped (e : AnalyticsEngine) (mt : string) :
  _get_metrics (df e) mt NaN = None /\
  emitted e (SpreadOf NaN) = [] /\
  emitted e (MoneylineOf NaN) = [] /\
  (is_chart_market mt = true -> create_analysis_chart (df e) mt NaN = NoChart).
Proof.
  split; [apply get_metrics_null |]. split; [| split].
  - cbn. rewrite get_metrics_null. reflexivity.
  - cbn. rewrite get_metrics_null. reflexivity.
  - intros Hmt. unfold create_analysis_chart. unfold is_chart_market in Hmt.
    rewrite Hmt.
    assert (E : filter (fun r => String.eqb (market_type r) mt && cell_eq (team r) NaN)
                       (df e) = []).
    { induction (df e) as [| r d' IH]; [reflexivity |].
      cbn [filter]. destruct (team r); cbn [cell_eq NaN];
        rewrite andb_false_r; exact IH. }
    rewrite E. reflexivity.
Qed.


(** * Results that depend on binary64 rounding and on the sort kernel *)

(** ** The odds conversion on binary64 *)

Lemma forall_range_spec (depth : nat) (lo : Z) (P : Z -> bool) :
  forall_range depth lo P = true ->
  forall z, lo <= z < lo + 2 ^ Z.of_nat depth -> P z = true.
Proof.
  revert lo. induction depth as [| d IH]; intros lo H z Hz.
  - cbn in H, Hz. assert (z = lo) by lia. subst z. exact H.
  - cbn [forall_range] in H. apply andb_true_iff in H. destruct H as [H1 H2].
    rewrite Nat2Z.inj_succ, Z.pow_succ_r in Hz by lia.
    destruct (Z.lt_ge_cases z (lo + 2 ^ Z.of_nat d)) as [Hlt | Hge].
    + apply (IH lo H1). lia.
    + apply (IH _ H2). lia.
Qed.

Lemma converts_above_1_positive :
  forall_range 20 1 converts_above_1 = true.
Proof. vm_compute. reflexivity. Qed.

Lemma converts_above_1_negative :
  forall_range 20 1 (fun z => converts_above_1 (- z)) = true.
Proof. vm_compute. reflexivity. Qed.

(** C4 -- for every nonzero integer American odds from -1,000,000 to
    1,000,000 the binary64 result of the conversion is [1 + odds/100]
    when [odds >= 0] and [1 - 100/odds] when [odds < 0], and it is
    strictly greater than 1. *)
Theorem american_to_decimal_b64_gt_1 (z : Z) :
  z <> 0 -> -1000000 <= z <= 1000000 ->
  let odds := float_of_Z z in
  american_to_decimal_b64 odds
    = (if 0 <=? z then (1 + odds / 100)%float else (1 - 100 / odds)%float) /\
  (1 <? american_to_decimal_b64 odds)%float = true.
Proof.
  intros Hnz Hrange odds.
  assert (H : converts_above_1 z = true).
  { destruct (Z.lt_ge_cases z 0) as [Hneg | Hpos].
    - pose proof (forall_range_spec 20 1 _ converts_above_1_negative (- z)) as H.
      cbv beta in H. rewrite Z.opp_involutive in H. apply H.
      change (2 ^ Z.of_nat 20) with 1048576. lia.
    - apply (forall_range_spec 20 1 _ converts_above_1_positive).
      change (2 ^ Z.of_nat 20) with 1048576. lia. }
  unfold converts_above_1 in H. fold odds in H.
  apply andb_true_iff in H. destruct H as [Hsign Hgt].
  apply Bool.eqb_prop in Hsign.
  split; [| exact Hgt].
  unfold american_to_decimal_b64. rewrite Hsign. reflexivity.
Qed.

Lemma american_to_decimal_b64_gt_1_witness :
  american_to_decimal_b64 (float_of_Z (-150))
    = (1 - 100 / float_of_Z (-150))%float /\
  (1 <? american_to_decimal_b64 (float_of_Z (-150)))%float = true.
Proof.
  apply (american_to_decimal_b64_gt_1 (-150)); lia.
Defined.

(** At odds -10^18 the quotient [100 / odds] is below half an ulp of 1:
    the result is exactly 1.0, not above it. *)
Lemma american_to_decimal_b64_rounds_to_1 :
  ~ (forall z : Z, z <> 0 ->
       (1 <? american_to_decimal_b64 (float_of_Z z))%float = true).
Proof.
  intros H. specialize (H (- 10 ^ 18)).
  assert (E : (1 <? american_to_decimal_b64 (float_of_Z (- 10 ^ 18)))%float = false)
    by (vm_compute; reflexivity).
  apply Bool.diff_false_true. rewrite <- E. apply H. lia.
Qed.

(** ** The recommendation text on binary64 *)

Section SafeBetLine.

Variable get_metrics : string -> cell -> option MetricB64.
Variable sb tb : float.
Variable tms : Teams.

Lemma spread_step_b64_app acc it :
  spread_step_b64 get_metrics sb acc it
  = acc ++ spread_step_b64 get_metrics sb [] it.
Proof.
  destruct it as [k t]. cbn. destruct (get_metrics "Spread" t);
    [reflexivity | symmetry; apply app_nil_r].
Qed.

Lemma total_step_b64_app acc sd :
  total_step_b64 get_metrics tb acc sd
  = acc ++ total_step_b64 get_metrics tb [] sd.
Proof.
  unfold total_step_b64. destruct (get_metrics "Total" (Some sd));
    [reflexivity | symmetry; apply app_nil_r].
Qed.

Lemma moneyline_step_b64_app acc it :
  moneyline_step_b64 get_metrics acc it
  = acc ++ moneyline_step_b64 get_metrics [] it.
Proof.
  destruct it as [k t]. cbn. destruct (get_metrics "Moneyline" t);
    [reflexivity | symmetry; apply app_nil_r].
Qed.

(** The collected list, loop by loop. *)
Lemma collect_signals_b64_app :
  collect_signals_b64 get_metrics sb tb tms
  = spread_step_b64 get_metrics sb [] ("home", home tms)
    ++ spread_step_b64 get_metrics sb [] ("away", away tms)
    ++ total_step_b64 get_metrics tb [] "over"
    ++ total_step_b64 get_metrics tb [] "under"
    ++ moneyline_step_b64 get_metrics [] ("home", home tms)
    ++ moneyline_step_b64 get_metrics [] ("away", away tms).
Proof.
  unfold collect_signals_b64, items. cbn [fold_left].
  rewrite (moneyline_step_b64_app _ ("away", away tms)).
  rewrite (moneyline_step_b64_app _ ("home", home tms)).
  rewrite (total_step_b64_app _ "under").
  rewrite (total_step_b64_app _ "over").
  rewrite (spread_step_b64_app _ ("away", away tms)).
  rewrite <- !app_assoc. reflexivity.
Qed.

End SafeBetLine.

Lemma take_In {A} (rows : list A) (indexer : list nat) (r : A) :
  In r (take rows indexer) -> In r rows.
Proof.
  unfold take. intros H. apply in_flat_map in H. destruct H as (i & _ & Hr).
  destruct (nth_error rows i) as [r' |] eqn:E; [| destruct Hr].
  destruct Hr as [<- | []]. eapply nth_error_In. exact E.
Qed.

(** C9 -- every signal of the returned frame is a Spread, Total Over,
    Total Under or Moneyline signal and carries the recommendation of its
    market, computed in binary64 from its own metrics: the team name and
    [close_line + spread_buffer]; Over and [close_line - total_buffer] or
    Under and [close_line + total_buffer]; "Victorie (ML)" exactly when
    [current_odds < 2.0] and the cautionary text otherwise. *)
Theorem safe_bet_line_b64 (get_metrics : string -> cell -> option MetricB64)
    (sb tb : float) (tms : Teams) (out : list SignalB64) (s : SignalB64) :
  analyze_all_b64 get_metrics sb tb tms = Ok out ->
  In s out ->
  In (Market_b64 s) ["SPREAD"; "TOTAL OVER"; "TOTAL UNDER"; "MONEYLINE"] /\
  Safe_Bet_Line_b64 s = recommended sb tb s /\
  (Market_b64 s = "MONEYLINE" ->
     (Safe_Bet_Line_b64 s = "Victorie (ML)"
      <-> (current_odds_b64 (Metrics_b64 s) <? 2)%float = true)) /\
  (Market_b64 s = "SPREAD" \/ Market_b64 s = "MONEYLINE" ->
     In (Selection_b64 s) [home tms; away tms] /\
     exists mt, get_metrics mt (Selection_b64 s) = Some (Metrics_b64 s)).
Proof.
  unfold analyze_all_b64. intros Hout Hs.
  assert (Hin : In s (collect_signals_b64 get_metrics sb tb tms)).
  { destruct (collect_signals_b64 get_metrics sb tb tms) as [| s0 l];
      [discriminate |].
    inversion Hout as [Ho]. rewrite <- Ho in Hs. apply take_In in Hs. exact Hs. }
  clear Hout Hs out.
  rewrite collect_signals_b64_app in Hin.
  repeat (apply in_app_or in Hin; destruct Hin as [Hin | Hin]).
  - cbn in Hin. destruct (get_metrics "Spread" (home tms)) as [m |] eqn:E;
      [| destruct Hin].
    apply in_singleton in Hin. subst s. unfold recommended. cbn.
    repeat split; try tauto; try discriminate; eauto.
  - cbn in Hin. destruct (get_metrics "Spread" (away tms)) as [m |] eqn:E;
      [| destruct Hin].
    apply in_singleton in Hin. subst s. unfold recommended. cbn.
    repeat split; try tauto; try discriminate; eauto.
  - unfold total_step_b64 in Hin.
    change (upper "over") with "OVER" in Hin.
    change (title "over") with "Over" in Hin.
    destruct (get_metrics "Total" (Some "over")) as [m |]; [| destruct Hin].
    apply in_singleton in Hin. subst s. unfold recommended. cbn.
    repeat split; try tauto; try discriminate;
      match goal with H : _ \/ _ |- _ => destruct H as [H | H]; discriminate H end.
  - unfold total_step_b64 in Hin.
    change (upper "under") with "UNDER" in Hin.
    change (title "under") with "Under" in Hin.
    destruct (get_metrics "Total" (Some "under")) as [m |]; [| destruct Hin].
    apply in_singleton in Hin. subst s. unfold recommended. cbn.
    repeat split; try tauto; try discriminate;
      match goal with H : _ \/ _ |- _ => destruct H as [H | H]; discriminate H end.
  - cbn in Hin. destruct (get_metrics "Moneyline" (home tms)) as [m |] eqn:E;
      [| destruct Hin].
    apply in_singleton in Hin. subst s. unfold recommended. cbn.
    destruct (current_odds_b64 m <? 2)%float;
      repeat split; try tauto; try discriminate; eauto.
  - cbn in Hin. destruct (get_metrics "Moneyline" (away tms)) as [m |] eqn:E;
      [| destruct Hin].
    apply in_singleton in Hin. subst s. unfold recommended. cbn.
    destruct (current_odds_b64 m <? 2)%float;
      repeat split; try tauto; try discriminate; eauto.
Qed.

(** ** The order returned by the default sort *)

Lemma lists_upto_In (vals : list Z) (n : nat) (l : list Z) :
  Forall (fun v => In v vals) l -> (length l <= n)%nat ->
  In l (lists_upto vals n).
Proof.
  revert l. induction n as [| n' IH]; intros l Hall Hlen.
  - destruct l; [left; reflexivity | cbn in Hlen; lia].
  - cbn [lists_upto]. destruct l as [| v l']; [left; reflexivity |].
    right. apply in_flat_map. exists l'. inversion Hall; subst. split.
    + apply IH; [assumption | cbn in Hlen; lia].
    + apply in_map_iff. exists v. split; [reflexivity | assumption].
Qed.

Lemma all_sorts_desc : forallb sorts_desc (lists_upto score_values 6) = true.
Proof. vm_compute. reflexivity. Qed.



Lemma is_indexer_perm (n : nat) (idx : list nat) :
  is_indexer n idx = true -> Permutation (seq 0 n) idx.
Proof.
  unfold is_indexer. intros H. apply andb_true_iff in H. destruct H as [Hlen Hall].
  apply Nat.eqb_eq in Hlen.
  apply NoDup_Permutation_bis.
  - apply seq_NoDup.
  - rewrite length_seq. lia.
  - intros i Hi. rewrite forallb_forall in Hall. specialize (Hall i Hi).
    apply existsb_exists in Hall. destruct Hall as (j & Hj & Hij).
    apply Nat.eqb_eq in Hij. subst j. exact Hj.
Qed.

Lemma descendingb_sorted (l : list Z) :
  descendingb l = true -> StronglySorted (fun a b => b <= a) l.
Proof.
  intros H. apply Sorted_StronglySorted.
  - intros a b c Hab Hbc. lia.
  - induction l as [| a t IH]; [constructor |].
    destruct t as [| b t'].
    + constructor; constructor.
    + cbn [descendingb] in H. apply andb_true_iff in H. destruct H as [Hba Ht].
      constructor; [apply IH; exact Ht |].
      constructor. apply Z.leb_le. exact Hba.
Qed.

Section Take.

Context {A : Type}.
Variable score : A -> Z.

Lemma take_seq_shift (a : A) (rows : list A) (l : list nat) :
  take (a :: rows) (map S l) = take rows l.
Proof.
  unfold take. induction l as [| i l' IH]; [reflexivity |].
  cbn [map flat_map]. rewrite IH. reflexivity.
Qed.

Lemma take_all (rows : list A) : take rows (seq 0 (length rows)) = rows.
Proof.
  induction rows as [| a rows' IH]; [reflexivity |].
  cbn [length seq]. rewrite <- seq_shift.
  change (take (a :: rows') (0%nat :: map S (seq 0 (length rows'))))
    with (a :: take (a :: rows') (map S (seq 0 (length rows')))).
  rewrite take_seq_shift, IH. reflexivity.
Qed.

Lemma take_perm (rows : list A) (idx : list nat) :
  Permutation (seq 0 (length rows)) idx -> Permutation rows (take rows idx).
Proof.
  intros H. rewrite <- (take_all rows) at 1.
  unfold take. apply Permutation_flat_map. exact H.
Qed.

Lemma take_scores (rows : list A) (idx : list nat) :
  Forall (fun i => (i < length rows)%nat) idx ->
  map score (take rows idx) = map (fun i => nth i (map score rows) 0) idx.
Proof.
  induction 1 as [| i idx' Hi Hall IH]; [reflexivity |].
  unfold take in *. cbn [flat_map map]. rewrite map_app, IH.
  destruct (nth_error rows i) as [r |] eqn:E.
  - cbn. f_equal. symmetry.
    apply nth_error_nth. rewrite nth_error_map, E. reflexivity.
  - apply nth_error_None in E. lia.
Qed.


Lemma sorted_by_score (l : list A) :
  StronglySorted (fun a b => b <= a) (map score l) ->
  StronglySorted (fun a b => score b <= score a) l.
Proof.
  induction l as [| a t IH]; intros H; [constructor |].
  cbn [map] in H. inversion H as [| x y Hs Hall]; subst.
  constructor; [apply IH; exact Hs |].
  apply Forall_forall. intros b Hb.
  rewrite Forall_forall in Hall. apply Hall. apply in_map. exact Hb.
Qed.

(** What the boolean check on the keys gives for the rows. *)
Lemma sorts_desc_rows (rows : list A) :
  sorts_desc (map score rows) = true ->
  Permutation rows (sort_values_default score rows) /\
  StronglySorted (fun a b => score b <= score a) (sort_values_default score rows).
Proof.
  unfold sorts_desc, sort_values_default. intros H.
  apply andb_true_iff in H. destruct H as [Hidx Hdesc].
  rewrite length_map in Hidx. apply is_indexer_perm in Hidx.
  split; [apply take_perm; exact Hidx |].
  apply sorted_by_score. rewrite take_scores.
  - apply descendingb_sorted. exact Hdesc.
  - apply Forall_forall. intros i Hi.
    apply (Permutation_in _ (Permutation_sym Hidx)) in Hi.
    apply in_seq in Hi. lia.
Qed.


End Take.

Lemma calculate_score_in_values (mt : string) (m : Metric) (selection : cell) :
  In (_calculate_score mt m selection) score_values.
Proof.
  assert (H : 2 <= _calculate_score mt m selection <= 10).
  { rewrite calculate_score_clamped.
    unfold clamp, flow_adjustment, market_adjustment.
    destruct (Qltb (5 # 10) (money_flow m));
      destruct (Qltb (money_flow m) (- (5 # 10)));
      destruct (String.eqb mt "Spread");
      destruct (String.eqb mt "Total");
      destruct (String.eqb mt "Moneyline");
      destruct (Qltb (close_line m) (open_line m));
      destruct (Qltb (open_line m) (close_line m));
      destruct (Qltb 0 (money_flow m));
      destruct (Qltb (15 # 10) (money_flow m));
      destruct (cell_eq selection (Some "over"));
      destruct (cell_eq selection (Some "under"));
      cbn; lia. }
  assert (E : _calculate_score mt m selection = 2 \/ _calculate_score mt m selection = 3 \/
              _calculate_score mt m selection = 4 \/ _calculate_score mt m selection = 5 \/
              _calculate_score mt m selection = 6 \/ _calculate_score mt m selection = 7 \/
              _calculate_score mt m selection = 8 \/ _calculate_score mt m selection = 9 \/
              _calculate_score mt m selection = 10) by lia.
  unfold score_values. cbn [In].
  repeat (destruct E as [E | E]; [rewrite E; tauto |]). rewrite E. tauto.
Qed.

Lemma collect_signals_bounded (e : AnalyticsEngine) :
  (length (collect_signals e) <= 6)%nat /\
  Forall (fun v => In v score_values) (map Score (collect_signals e)).
Proof.
  rewrite collect_signals_passes. split.
  - rewrite flat_map_emitted_length.
    etransitivity; [apply filter_length_le | cbn; lia].
  - apply Forall_forall. intros v Hv. apply in_map_iff in Hv.
    destruct Hv as (s & <- & Hs). apply in_flat_map in Hs.
    destruct Hs as (p & _ & Hs).
    destruct (emitted_inv e p s Hs) as (m & _ & _ & -> & _).
    apply calculate_score_in_values.
Qed.




(** The default sort is a sort kind on every list it orders, so that what
    holds of [analyze_all] for every kind holds of [analyze_all_default].
    Past the lists the modelled kernel orders (never reached from
    [analyze_all]) the kind falls back on insertion. *)
Definition default_kind : SortKind.
Proof.
  refine {| sort_values := fun l =>
              if sorts_desc (map Score l) then sort_values_default Score l
              else insertion_sort false l |}.
  - intros l. destruct (sorts_desc (map Score l)) eqn:E.
    + apply (sorts_desc_rows Score l E).
    + apply insertion_sort_perm.
  - intros l. destruct (sorts_desc (map Score l)) eqn:E.
    + apply (sorts_desc_rows Score l E).
    + apply insertion_sort_sorted.
Defined.

Lemma analyze_all_default_kind (e : AnalyticsEngine) :
  @analyze_all default_kind e = analyze_all_default e.
Proof.
  unfold analyze_all, analyze_all_default.
  destruct (collect_signals_bounded e) as [Hlen Hvals].
  destruct (collect_signals e) as [| s l] eqn:E; [reflexivity |].
  cbn [sort_values default_kind].
  assert (Hsorts : sorts_desc (map Score (s :: l)) = true).
  { pose proof all_sorts_desc as H. rewrite forallb_forall in H. apply H.
    apply lists_upto_In; [exact Hvals | rewrite length_map; exact Hlen]. }
  rewrite Hsorts. reflexivity.
Qed.

(** On [df_flat] the output is Moneyline away, Moneyline home, Spread
    away, Spread home: both pairs of equal score come out in reverse
    encounter order. *)
Example analyze_all_default_flat :
  new_engine df_flat = Ok engine_flat /\
  map Score (collect_signals engine_flat) = [4; 4; 5; 5] /\
  exists out,
    analyze_all_default engine_flat = Ok out /\
    map (fun s => (Market s, Selection s, Score s)) out
    = [("MONEYLINE", Some "Magic", 5); ("MONEYLINE", Some "Clippers", 5);
       ("SPREAD", Some "Magic", 4); ("SPREAD", Some "Clippers", 4)].
Proof.
  split; [vm_compute; reflexivity |]. split; [vm_compute; reflexivity |].
  exists (sort_values_default Score (collect_signals engine_flat)).
  split; vm_compute; reflexivity.
Qed.


(** ** The recommendation text on samples *)

Lemma safe_bet_line_b64_witness :
  exists out,
    analyze_all_b64 sample_metrics_b64 default_spread_buffer_b64
      default_total_buffer_b64 (mkTeams (Some "TeamA") (Some "TeamB")) = Ok out /\
    map (fun s => (Market_b64 s, Score_b64 s, Safe_Bet_Line_b64 s)) out
    = [("TOTAL UNDER", 10, "Under 219.0"); ("SPREAD", 9, "TeamB -2.0");
       ("MONEYLINE", 5, "Victorie (ML)"); ("SPREAD", 4, "TeamA 4.7")] /\
    Forall (fun s => Safe_Bet_Line_b64 s
                     = recommended default_spread_buffer_b64
                         default_total_buffer_b64 s) out.
Proof.
  destruct (analyze_all_b64 sample_metrics_b64 default_spread_buffer_b64
              default_total_buffer_b64 (mkTeams (Some "TeamA") (Some "TeamB")))
    as [out | x] eqn:E; [| vm_compute in E; discriminate E].
  exists out. split; [reflexivity |]. split.
  - vm_compute in E. injection E as <-. vm_compute. reflexivity.
  - apply Forall_forall. intros s Hs.
    apply (safe_bet_line_b64 sample_metrics_b64 default_spread_buffer_b64
             default_total_buffer_b64 (mkTeams (Some "TeamA") (Some "TeamB"))
             out s E Hs).
Defined.

